(** * managedcluster-import-controller: event routing and cluster-deployment import

    A shallow embedding of
    - [pkg/controller/hosted/manager.go] (the watches registered by [Add]:
      map functions and event predicates), and
    - the cluster-deployment reconciler ([Reconcile],
      [setCreatedViaAnnotation], [removeImportFinalizer]),
    followed by the properties of the specification that concern them. *)

From Stdlib Require Import String Ascii List ZArith Bool Lia.
From stdpp Require Import base gmap strings list fin_maps.

Local Open Scope string_scope.
Local Open Scope list_scope.

(** ** Go strings

    A Go [string] is a sequence of bytes; so is a Rocq [string]. *)
Module GoStrings.

(** [strings.HasSuffix]:
    [len(s) >= len(suffix) && s[len(s)-len(suffix):] == suffix]. *)
Definition HasSuffix (s suffix : string) : bool :=
  (String.length suffix <=? String.length s)%nat
  && String.eqb
       (substring (String.length s - String.length suffix)
                  (String.length suffix) s)
       suffix.

(** [strings.TrimSuffix]: [s] without the trailing [suffix] when it has
    one, [s] itself otherwise. *)
Definition TrimSuffix (s suffix : string) : string :=
  if HasSuffix s suffix
  then substring 0 (String.length s - String.length suffix) s
  else s.

(** Folding of the ASCII letters, used to run [strings.EqualFold] on
    ASCII inputs. *)
Definition asciiLower (c : ascii) : ascii :=
  let n := nat_of_ascii c in
  if ((65 <=? n) && (n <=? 90))%nat then ascii_of_nat (n + 32) else c.

Fixpoint asciiEqualFold (s t : string) : bool :=
  match s, t with
  | EmptyString, EmptyString => true
  | String a s', String b t' =>
      Ascii.eqb (asciiLower a) (asciiLower b) && asciiEqualFold s' t'
  | _, _ => false
  end.

End GoStrings.
Export GoStrings.

(** ** Kubernetes objects, as far as the controllers read them *)

(** A byte slice; [nil] and the empty slice are the same value here, as
    they are for [equality.Semantic]. *)
Abbreviation bytes := (list ascii).

(** [time.Time] as an instant counted from the zero time. *)
Definition Time := N.

Record ObjectMeta := {
  Name : string;
  Namespace : string;
  ResourceVersion : string;
  Labels : gmap string string;
  Annotations : gmap string string;
  Finalizers : list string;
  DeletionTimestamp : option Time
}.

(** [IsZero] on a pointer to [metav1.Time]: a nil pointer or the zero
    instant. *)
Definition Time_IsZero (t : option Time) : bool :=
  match t with
  | None => true
  | Some n => (n =? 0)%N
  end.

(** [corev1.Secret] *)
Record Secret := {
  secretMeta : ObjectMeta;
  Data : gmap string bytes
}.

(** [workv1.Manifest]: a raw (rendered) resource. *)
Record Manifest := { Raw : bytes }.

(** [workv1.ManifestWork]; [Manifests] is [Spec.Workload.Manifests]. *)
Record ManifestWork := {
  workMeta : ObjectMeta;
  Manifests : list Manifest
}.

(** [clusterv1.ManagedCluster] *)
Record Condition := {
  condType : string;
  condStatus : string;
  condMessage : string;
  condReason : string
}.

Record ManagedCluster := {
  clusterMeta : ObjectMeta;
  Conditions : list Condition
}.

(** [client.Object]: the dynamic type of a watched object. *)
Inductive Object :=
| ObjManifestWork (w : ManifestWork)
| ObjSecret (s : Secret)
| ObjManagedCluster (c : ManagedCluster)
| ObjOther (m : ObjectMeta).

Definition GetObjectMeta (o : Object) : ObjectMeta :=
  match o with
  | ObjManifestWork w => workMeta w
  | ObjSecret s => secretMeta s
  | ObjManagedCluster c => clusterMeta c
  | ObjOther m => m
  end.

Definition GetName (o : Object) : string := Name (GetObjectMeta o).
Definition GetNamespace (o : Object) : string := Namespace (GetObjectMeta o).
Definition GetAnnotations (o : Object) : gmap string string :=
  Annotations (GetObjectMeta o).

(** The type assertions of an object to a manifest work and to a secret,
    with their [ok] result. *)
Definition asManifestWork (o : Object) : option ManifestWork :=
  match o with ObjManifestWork w => Some w | _ => None end.

Definition asSecret (o : Object) : option Secret :=
  match o with ObjSecret s => Some s | _ => None end.

(** Reading a Go [map[string]string] at a key: the zero value when the key
    is absent. *)
Definition mapIndex (m : gmap string string) (k : string) : string :=
  default "" (m !! k).

(** [equality.Semantic.DeepEqual] on [map[string][]byte]: nil and empty maps
    (and slices) are equal, so it is equality of the finite maps. *)
Definition DeepEqualData (a b : gmap string bytes) : bool :=
  bool_decide (a = b).

(** ** controller-runtime: requests, events, predicates, handlers *)

Record NamespacedName := { nnNamespace : string; nnName : string }.
Record Request := { reqNamespacedName : NamespacedName }.

Definition requestFor (ns name : string) : Request :=
  {| reqNamespacedName := {| nnNamespace := ns; nnName := name |} |}.

Record CreateEvent := { createObject : Object }.
Record DeleteEvent := { deleteObject : Object }.
Record GenericEvent := { genericObject : Object }.
Record UpdateEvent := { ObjectOld : Object; ObjectNew : Object }.

Inductive Event :=
| EvCreate (e : CreateEvent)
| EvUpdate (e : UpdateEvent)
| EvDelete (e : DeleteEvent)
| EvGeneric (e : GenericEvent).

(** [predicate.Funcs] *)
Record Funcs := {
  CreateFunc : CreateEvent -> bool;
  DeleteFunc : DeleteEvent -> bool;
  UpdateFunc : UpdateEvent -> bool;
  GenericFunc : GenericEvent -> bool
}.

(** The two handlers [Add] installs. *)
Inductive EventHandler :=
| EnqueueRequestForObject
| ManagedClusterResourceEventHandler (MapFunc : option (Object -> Request)).

(** Modelled from the spec: [source.ManagedClusterResourceEventHandler] is
    not part of the sources. Without a [MapFunc] it keys an object by its
    namespace ("key = the secret's namespace", spec 4.2); with one it keys
    it by the [MapFunc]. Updates are keyed by the new object. *)
Definition enqueue (h : EventHandler) (o : Object) : Request :=
  match h with
  | EnqueueRequestForObject => requestFor (GetNamespace o) (GetName o)
  | ManagedClusterResourceEventHandler (Some f) => f o
  | ManagedClusterResourceEventHandler None =>
      requestFor (GetNamespace o) (GetNamespace o)
  end.

Record Watch := { watchHandler : EventHandler; watchPredicate : Funcs }.

Definition eventObject (e : Event) : Object :=
  match e with
  | EvCreate c => createObject c
  | EvUpdate u => ObjectNew u
  | EvDelete d => deleteObject d
  | EvGeneric g => genericObject g
  end.

Definition interesting (p : Funcs) (e : Event) : bool :=
  match e with
  | EvCreate c => CreateFunc p c
  | EvUpdate u => UpdateFunc p u
  | EvDelete d => DeleteFunc p d
  | EvGeneric g => GenericFunc p g
  end.

(** What a watch puts on the work queue for an event: the handler runs
    only when the predicate accepts the event. *)
Definition route (w : Watch) (e : Event) : option Request :=
  if interesting (watchPredicate w) e
  then Some (enqueue (watchHandler w) (eventObject e))
  else None.

(** ** What the controllers import from outside the sources

    The [constants] package and Go's [strings.EqualFold] (Unicode simple
    case folding) are taken as parameters. *)
Class Imports := {
  HostedKlusterletManifestworkSuffix : string;
  HostedManagedKubeconfigManifestworkSuffix : string;
  KlusterletDeployModeAnnotation : string;
  KlusterletDeployModeHosted : string;
  CreatedViaAnnotation : string;
  CreatedViaDiscovery : string;
  CreatedViaAI : string;
  CreatedViaHive : string;
  ImportFinalizer : string;
  AutoImportSecretName : string;
  ImportSecretNameSuffix : string;
  KlusterletWorksLabel : string;
  EqualFold : string -> string -> bool
}.

(** Modelled from the spec: [helpers.ManifestsEqual] is not part of the
    sources; work objects are compared by their "rendered manifest
    contents" (spec 4.2), manifest by manifest. *)
Definition ManifestsEqual (new old : list Manifest) : bool :=
  bool_decide (map Raw new = map Raw old).

(** ** pkg/controller/hosted/manager.go *)
Module Hosted.
Section Hosted.
Context `{Imports}.

Definition isHostedModeObject (object : Object) : bool :=
  EqualFold (mapIndex (GetAnnotations object) KlusterletDeployModeAnnotation)
            KlusterletDeployModeHosted.

(** First watch: hosted manifest works. *)
Definition HostedWork_MapFunc (o : Object) : Request :=
  let managedClusterName := GetNamespace o in
  let workName := GetName o in
  let managedClusterName :=
    if HasSuffix workName HostedKlusterletManifestworkSuffix
    then TrimSuffix workName ("-" +:+ HostedKlusterletManifestworkSuffix)
    else managedClusterName in
  let managedClusterName :=
    if HasSuffix workName HostedManagedKubeconfigManifestworkSuffix
    then TrimSuffix workName ("-" +:+ HostedManagedKubeconfigManifestworkSuffix)
    else managedClusterName in
  requestFor managedClusterName managedClusterName.

Definition HostedWork_UpdateFunc (e : UpdateEvent) : bool :=
  let workName := GetName (ObjectNew e) in
  if negb (HasSuffix workName HostedKlusterletManifestworkSuffix)
     || negb (HasSuffix workName HostedManagedKubeconfigManifestworkSuffix)
  then false
  else
    match asManifestWork (ObjectNew e), asManifestWork (ObjectOld e) with
    | Some new, Some old =>
        negb (ManifestsEqual (Manifests new) (Manifests old))
    | _, _ => false
    end.

Definition HostedWorkWatch : Watch := {|
  watchHandler := ManagedClusterResourceEventHandler (Some HostedWork_MapFunc);
  watchPredicate := {|
    GenericFunc := fun _ => false;
    CreateFunc := fun _ => true;
    DeleteFunc := fun _ => true;
    UpdateFunc := HostedWork_UpdateFunc
  |}
|}.


(** The update predicate shared by the two secret watches. *)
Definition Secret_UpdateFunc (e : UpdateEvent) : bool :=
  match asSecret (ObjectNew e), asSecret (ObjectOld e) with
  | Some new, Some old => negb (DeepEqualData (Data old) (Data new))
  | _, _ => false
  end.

(** Third watch: import secrets. *)
Definition ImportSecretWatch : Watch := {|
  watchHandler := ManagedClusterResourceEventHandler None;
  watchPredicate := {|
    GenericFunc := fun _ => false;
    DeleteFunc := fun _ => false;
    CreateFunc := fun e => isHostedModeObject (createObject e);
    UpdateFunc := Secret_UpdateFunc
  |}
|}.

(** Fourth watch: auto-import secrets. *)
Definition AutoImportSecretWatch : Watch := {|
  watchHandler := ManagedClusterResourceEventHandler None;
  watchPredicate := {|
    GenericFunc := fun _ => false;
    DeleteFunc := fun _ => false;
    CreateFunc := fun _ => true;
    UpdateFunc := Secret_UpdateFunc
  |}
|}.

End Hosted.
End Hosted.

(** ** Errors

    An [error] returned by a collaborator (API server, lister, helper) is
    observed by the reconciler through its [Error()] text and through
    [errors.IsNotFound] only. *)
Record error := {
  Error_ : string;
  IsNotFound : bool
}.

Definition quote : string := String (ascii_of_nat 34) EmptyString.

(** [errors.NewNotFound]: what a getter answers for an absent object. *)
Definition NewNotFound (resource name : string) : error :=
  {| Error_ := resource +:+ " " +:+ quote +:+ name +:+ quote +:+ " not found";
     IsNotFound := true |}.

(** What [Reconcile] returns as its error: an error of a collaborator
    passed through, or the [utilerrors.NewAggregate] of a list. *)
Inductive ReturnedError :=
| Plain (err : error)
| Aggregate (errs : list error).

(** [utilerrors.NewAggregate]: nil for an empty list. *)
Definition NewAggregate (errs : list error) : option ReturnedError :=
  match errs with
  | [] => None
  | _ :: _ => Some (Aggregate errs)
  end.

(** ** hivev1.ClusterDeployment, as far as the reconciler reads it *)

Record ClusterPoolReference := { ClaimedTimestamp : option Time }.
Record ClusterMetadata := { AdminKubeconfigSecretRef_Name : string }.
Inductive AgentBareMetalPlatform := agentBareMetalPlatform.
Record Platform := { AgentBareMetal : option AgentBareMetalPlatform }.

Record ClusterDeployment := {
  deploymentMeta : ObjectMeta;
  Installed : bool;
  ClusterPoolRef : option ClusterPoolReference;
  SpecClusterMetadata : option ClusterMetadata;
  SpecPlatform : Platform
}.

(** [reconcile.Result] *)
Record Result := { Requeue : bool; RequeueAfter : Z }.
Definition Result_zero : Result := {| Requeue := false; RequeueAfter := 0 |}.

(** ** The world the reconciler runs in *)

(** The calls to collaborators, each of which can fail. *)
Inductive Call :=
| GetClusterDeployment
| GetManagedCluster
| PatchManagedCluster
| PatchClusterDeployment
| GetAutoImportSecret
| GetAdminKubeconfigSecret
| GenerateClientFromSecret
| GetImportSecret
| ListManifestWorks
| ImportManagedClusterFromSecret
| UpdateManagedClusterStatus.

(** The handle [helpers.GenerateClientFromSecret] builds: a client and a
    REST mapper for the cluster the secret gives access to. *)
Record RemoteClient := { clientSecret : Secret }.

(** What the reconciler does to the outside, in order. *)
Inductive Action :=
| ActPatchManagedCluster (name : string) (patch : gmap string (option string))
| ActPatchClusterDeployment (namespace name : string) (finalizers : list string)
| ActImport (client : RemoteClient) (importSecret : Secret)
| ActUpdateStatus (clusterName : string) (cond : Condition)
| ActEvent (reason message : string).

Record World := {
  clusterDeployments : gmap (string * string) ClusterDeployment;
  managedClusters : gmap string ManagedCluster;
  kubeSecrets : gmap (string * string) Secret;
  autoImportSecrets : gmap (string * string) Secret;
  importSecrets : gmap (string * string) Secret;
  klusterletWorks : list ManifestWork;
  failures : Call -> option error;
  journal : list Action
}.

Definition setClusterDeployments (f : gmap (string * string) ClusterDeployment
                                     -> gmap (string * string) ClusterDeployment)
    (w : World) : World :=
  {| clusterDeployments := f (clusterDeployments w);
     managedClusters := managedClusters w;
     kubeSecrets := kubeSecrets w;
     autoImportSecrets := autoImportSecrets w;
     importSecrets := importSecrets w;
     klusterletWorks := klusterletWorks w;
     failures := failures w;
     journal := journal w |}.

Definition setManagedClusters (f : gmap string ManagedCluster
                                   -> gmap string ManagedCluster)
    (w : World) : World :=
  {| clusterDeployments := clusterDeployments w;
     managedClusters := f (managedClusters w);
     kubeSecrets := kubeSecrets w;
     autoImportSecrets := autoImportSecrets w;
     importSecrets := importSecrets w;
     klusterletWorks := klusterletWorks w;
     failures := failures w;
     journal := journal w |}.

Definition record (a : Action) (w : World) : World :=
  {| clusterDeployments := clusterDeployments w;
     managedClusters := managedClusters w;
     kubeSecrets := kubeSecrets w;
     autoImportSecrets := autoImportSecrets w;
     importSecrets := importSecrets w;
     klusterletWorks := klusterletWorks w;
     failures := failures w;
     journal := journal w ++ [a] |}.

(** ** A state monad with panics for the reconciler *)

Inductive Outcome (A : Type) :=
| Done (a : A) (w : World)
| Panic (w : World).
Arguments Done {A} a w.
Arguments Panic {A} w.

Definition M (A : Type) : Type := World -> Outcome A.

Definition ret {A} (a : A) : M A := fun w => Done a w.

Definition bind {A B} (m : M A) (k : A -> M B) : M B :=
  fun w => match m w with
           | Done a w' => k a w'
           | Panic w' => Panic w'
           end.

#[global] Instance M_ret : MRet M := @ret.
#[global] Instance M_bind : MBind M := fun A B k m => bind m k.

Definition panic {A} : M A := fun w => Panic w.
Definition gets {A} (f : World -> A) : M A := fun w => Done (f w) w.
Definition modify (f : World -> World) : M unit := fun w => Done tt (f w).

(** The answer of a call that returns a value or an error. *)
Inductive Got (A : Type) :=
| Value (a : A)
| Failure (err : error).
Arguments Value {A} a.
Arguments Failure {A} err.

(** The outcome of a collaborator for this call: its injected failure, if
    any. *)
Definition failing (c : Call) : M (option error) :=
  gets (fun w => failures w c).

(** A getter: the failure of the call, not-found for an absent object,
    the object otherwise. *)
Definition getFrom {K A} `{Countable K} (c : Call)
    (store : World -> gmap K A) (k : K) (resource name : string) : M (Got A) :=
  f ← failing c;
  match f with
  | Some err => ret (Failure err)
  | None =>
      o ← gets (fun w => store w !! k);
      match o with
      | Some a => ret (Value a)
      | None => ret (Failure (NewNotFound resource name))
      end
  end.

(** ** Collaborators of the reconciler *)

Definition withAnnotations (m : ObjectMeta) (a : gmap string string) : ObjectMeta :=
  {| Name := Name m; Namespace := Namespace m;
     ResourceVersion := ResourceVersion m; Labels := Labels m;
     Annotations := a; Finalizers := Finalizers m;
     DeletionTimestamp := DeletionTimestamp m |}.

Definition withFinalizers (m : ObjectMeta) (f : list string) : ObjectMeta :=
  {| Name := Name m; Namespace := Namespace m;
     ResourceVersion := ResourceVersion m; Labels := Labels m;
     Annotations := Annotations m; Finalizers := f;
     DeletionTimestamp := DeletionTimestamp m |}.

Definition clusterWithAnnotations (c : ManagedCluster) (a : gmap string string)
    : ManagedCluster :=
  {| clusterMeta := withAnnotations (clusterMeta c) a;
     Conditions := Conditions c |}.

Definition deploymentWithFinalizers (d : ClusterDeployment) (f : list string)
    : ClusterDeployment :=
  {| deploymentMeta := withFinalizers (deploymentMeta d) f;
     Installed := Installed d; ClusterPoolRef := ClusterPoolRef d;
     SpecClusterMetadata := SpecClusterMetadata d;
     SpecPlatform := SpecPlatform d |}.

(** [resourcemerge.MergeMap]: every entry of [required] is set in
    [existing]; [modified] is raised when an entry was absent or had another
    value, that is when the merged map differs from [existing]. *)
Definition MergeMap (existing required : gmap string string)
    : bool * gmap string string :=
  let merged := required ∪ existing in
  (bool_decide (merged ≠ existing), merged).

(** [client.MergeFrom(original)] for the annotations of an object: the JSON
    merge patch that leads from [original] to [modified]. A key maps to its
    new value, or to [None] (JSON null) when it was removed. *)
Definition annotationsPatch (original modified : gmap string string)
    : gmap string (option string) :=
  merge (fun o m =>
           match m with
           | Some v => if decide (o = Some v) then None else Some (Some v)
           | None => match o with Some _ => Some None | None => None end
           end) original modified.

(** The server applying such a patch to the annotations it holds. *)
Definition applyAnnotationsPatch (patch : gmap string (option string))
    (server : gmap string string) : gmap string string :=
  merge (fun p s =>
           match p with
           | Some (Some v) => Some v
           | Some None => None
           | None => s
           end) patch server.

(** [r.client.Patch(ctx, cluster, patch)] on a managed cluster. *)
Definition client_Patch_ManagedCluster (cluster original : ManagedCluster)
    : M (option error) :=
  let name := Name (clusterMeta cluster) in
  let patch := annotationsPatch (Annotations (clusterMeta original))
                                (Annotations (clusterMeta cluster)) in
  modify (record (ActPatchManagedCluster name patch));;
  f ← failing PatchManagedCluster;
  match f with
  | Some err => ret (Some err)
  | None =>
      o ← gets (fun w => managedClusters w !! name);
      match o with
      | None => ret (Some (NewNotFound "managedclusters.cluster.open-cluster-management.io" name))
      | Some server =>
          let annotations :=
            applyAnnotationsPatch patch (Annotations (clusterMeta server)) in
          modify (setManagedClusters
                    <[name := clusterWithAnnotations server annotations]>);;
          ret None
      end
  end.

(** [r.client.Patch(ctx, clusterDeployment, patch)] on a cluster deployment
    whose finalizers were changed: the merge patch replaces the list. *)
Definition client_Patch_ClusterDeployment (clusterDeployment original : ClusterDeployment)
    : M (option error) :=
  let namespace := Namespace (deploymentMeta clusterDeployment) in
  let name := Name (deploymentMeta clusterDeployment) in
  let finalizers := Finalizers (deploymentMeta clusterDeployment) in
  modify (record (ActPatchClusterDeployment namespace name finalizers));;
  f ← failing PatchClusterDeployment;
  match f with
  | Some err => ret (Some err)
  | None =>
      o ← gets (fun w => clusterDeployments w !! (namespace, name));
      match o with
      | None => ret (Some (NewNotFound "clusterdeployments.hive.openshift.io" name))
      | Some server =>
          (if decide (Finalizers (deploymentMeta original) = finalizers)
           then ret tt
           else modify (setClusterDeployments
                          <[(namespace, name) := deploymentWithFinalizers server finalizers]>));;
          ret None
      end
  end.

(** [r.recorder.Eventf] *)
Definition recorder_Eventf (reason message : string) : M unit :=
  modify (record (ActEvent reason message)).

(** [helpers.GenerateClientFromSecret] is not part of the sources: taken as
    a call that fails or yields the client for the secret. *)
Definition helpers_GenerateClientFromSecret (hiveSecret : Secret)
    : M (Got RemoteClient) :=
  f ← failing GenerateClientFromSecret;
  match f with
  | Some err => ret (Failure err)
  | None => ret (Value {| clientSecret := hiveSecret |})
  end.

(** [helpers.ImportManagedClusterFromSecret] is not part of the sources:
    taken as a call that applies the manifests of the import secret through
    the client, and succeeds or fails. *)
Definition helpers_ImportManagedClusterFromSecret (hiveClient : RemoteClient)
    (importSecret : Secret) : M (option error) :=
  modify (record (ActImport hiveClient importSecret));;
  failing ImportManagedClusterFromSecret.

(** [meta.SetStatusCondition]: the condition replaces the one of its type,
    or is added. *)
Fixpoint SetStatusCondition (conds : list Condition) (c : Condition)
    : list Condition :=
  match conds with
  | [] => [c]
  | x :: rest =>
      if String.eqb (condType x) (condType c) then c :: rest
      else x :: SetStatusCondition rest c
  end.

(** Modelled from the spec: [helpers.UpdateManagedClusterStatus] is not part
    of the sources; it "write[s] a single status condition on the cluster
    record" (spec 4.1, step 11), and its failure is a status-write failure
    (spec 7). *)
Definition helpers_UpdateManagedClusterStatus (clusterName : string)
    (cond : Condition) : M (option error) :=
  modify (record (ActUpdateStatus clusterName cond));;
  f ← failing UpdateManagedClusterStatus;
  match f with
  | Some err => ret (Some err)
  | None =>
      o ← gets (fun w => managedClusters w !! clusterName);
      match o with
      | None => ret (Some (NewNotFound "managedclusters.cluster.open-cluster-management.io" clusterName))
      | Some server =>
          modify (setManagedClusters
                    <[clusterName :=
                        {| clusterMeta := clusterMeta server;
                           Conditions := SetStatusCondition (Conditions server) cond |}]>);;
          ret None
      end
  end.

(** [KlusterletWorkLister.ManifestWorks(namespace).List(selector)] for the
    selector [label = value]. *)
Definition listManifestWorks (namespace label value : string)
    : M (Got (list ManifestWork)) :=
  f ← failing ListManifestWorks;
  match f with
  | Some err => ret (Failure err)
  | None =>
      works ← gets klusterletWorks;
      ret (Value (filter (fun work =>
                            Namespace (workMeta work) = namespace
                            ∧ Labels (workMeta work) !! label = Some value)
                         works))
  end.

(** ** The cluster-deployment reconciler *)
Module ClusterDeploymentController.
Section ClusterDeploymentController.
Context `{Imports}.

Definition setCreatedViaAnnotation (clusterDeployment : ClusterDeployment)
    (cluster : ManagedCluster) : M (option error) :=
  let original := cluster in
  let viaAnnotation :=
    mapIndex (Annotations (clusterMeta cluster)) CreatedViaAnnotation in
  if String.eqb viaAnnotation CreatedViaDiscovery then ret None
  else
    let required : gmap string string :=
      match AgentBareMetal (SpecPlatform clusterDeployment) with
      | Some _ => {[ CreatedViaAnnotation := CreatedViaAI ]}
      | None => {[ CreatedViaAnnotation := CreatedViaHive ]}
      end in
    let '(modified, annotations) :=
      MergeMap (Annotations (clusterMeta cluster)) required in
    let cluster := clusterWithAnnotations cluster annotations in
    if negb modified then ret None
    else
      err ← client_Patch_ManagedCluster cluster original;
      match err with
      | Some err => ret (Some err)
      | None =>
          recorder_Eventf "ManagedClusterLabelsUpdated"
            ("The managed cluster " +:+ Name (clusterMeta cluster)
             +:+ " labels is added");;
          ret None
      end.

Definition removeImportFinalizer (clusterDeployment : ClusterDeployment)
    : M (option error) :=
  let hasImportFinalizer :=
    existsb (fun finalizer => String.eqb finalizer ImportFinalizer)
            (Finalizers (deploymentMeta clusterDeployment)) in
  if negb hasImportFinalizer then ret None
  else if negb (length (Finalizers (deploymentMeta clusterDeployment)) =? 1)%nat
  then ret None
  else
    let original := clusterDeployment in
    let clusterDeployment := deploymentWithFinalizers clusterDeployment [] in
    err ← client_Patch_ClusterDeployment clusterDeployment original;
    match err with
    | Some err => ret (Some err)
    | None =>
        recorder_Eventf "ClusterDeploymentFinalizerRemoved"
          ("The clusterdeployment " +:+ Name (deploymentMeta clusterDeployment)
           +:+ " finalizer " +:+ ImportFinalizer +:+ " is removed");;
        ret None
    end.

Definition importSucceeded : Condition :=
  {| condType := "ManagedClusterImportSucceeded";
     condStatus := "True";
     condMessage := "Import succeeded";
     condReason := "ManagedClusterImported" |}.

Definition importFailed (clusterName : string) (err : error) : Condition :=
  {| condType := "ManagedClusterImportSucceeded";
     condStatus := "False";
     condMessage := "Unable to import " +:+ clusterName +:+ ": " +:+ Error_ err;
     condReason := "ManagedClusterNotImported" |}.

Definition Reconcile (request : Request) : M (Result * option ReturnedError) :=
  let clusterName := nnName (reqNamespacedName request) in
  got ← getFrom GetClusterDeployment clusterDeployments
          (clusterName, clusterName) "clusterdeployments.hive.openshift.io" clusterName;
  match got with
  | Failure err =>
      if IsNotFound err then ret (Result_zero, None)
      else ret (Result_zero, Some (Plain err))
  | Value clusterDeployment =>
  if negb (Time_IsZero (DeletionTimestamp (deploymentMeta clusterDeployment)))
  then
    err ← removeImportFinalizer clusterDeployment;
    ret (Result_zero, Plain <$> err)
  else
  got ← getFrom GetManagedCluster managedClusters clusterName
          "managedclusters.cluster.open-cluster-management.io" clusterName;
  match got with
  | Failure err =>
      if IsNotFound err then ret (Result_zero, None)
      else ret (Result_zero, Some (Plain err))
  | Value managedCluster =>
  if negb (Installed clusterDeployment) then ret (Result_zero, None)
  else
  if match ClusterPoolRef clusterDeployment with
     | Some ref => Time_IsZero (ClaimedTimestamp ref)
     | None => false
     end
  then ret (Result_zero, None)
  else
  err ← setCreatedViaAnnotation clusterDeployment managedCluster;
  match err with
  | Some err => ret (Result_zero, Some (Plain err))
  | None =>
  got ← getFrom GetAutoImportSecret autoImportSecrets
          (clusterName, AutoImportSecretName) "secret" AutoImportSecretName;
  match got with
  | Value _ => ret (Result_zero, None)
  | Failure err =>
  if negb (IsNotFound err) then ret (Result_zero, Some (Plain err))
  else
  match SpecClusterMetadata clusterDeployment with
  | None => panic
  | Some clusterMetadata =>
  let secretRefName := AdminKubeconfigSecretRef_Name clusterMetadata in
  got ← getFrom GetAdminKubeconfigSecret kubeSecrets
          (clusterName, secretRefName) "secrets" secretRefName;
  match got with
  | Failure err => ret (Result_zero, Some (Plain err))
  | Value hiveSecret =>
  got ← helpers_GenerateClientFromSecret hiveSecret;
  match got with
  | Failure err => ret (Result_zero, Some (Plain err))
  | Value hiveClient =>
  let importSecretName := clusterName +:+ "-" +:+ ImportSecretNameSuffix in
  got ← getFrom GetImportSecret importSecrets
          (clusterName, importSecretName) "secret" importSecretName;
  match got with
  | Failure err =>
      if IsNotFound err then ret (Result_zero, None)
      else ret (Result_zero, Some (Plain err))
  | Value importSecret =>
  got ← listManifestWorks clusterName KlusterletWorksLabel "true";
  match got with
  | Failure err => ret (Result_zero, Some (Plain err))
  | Value manifestWorks =>
  if negb (length manifestWorks =? 2)%nat then ret (Result_zero, None)
  else
  let importCondition := importSucceeded in
  let errs : list error := [] in
  err ← helpers_ImportManagedClusterFromSecret hiveClient importSecret;
  let '(errs, importCondition) :=
    match err with
    | Some err => (errs ++ [err], importFailed clusterName err)
    | None => (errs, importCondition)
    end in
  err ← helpers_UpdateManagedClusterStatus clusterName importCondition;
  let errs :=
    match err with
    | Some err => errs ++ [err]
    | None => errs
    end in
  ret (Result_zero, NewAggregate errs)
  end end end end end end end end end.

End ClusterDeploymentController.
End ClusterDeploymentController.

(** ** Observing a run *)

Definition outcomeWorld {A} (o : Outcome A) : World :=
  match o with
  | Done _ w => w
  | Panic w => w
  end.

(** What a run returned, when it did not panic. *)
Definition returned {A} (o : Outcome A) : option A :=
  match o with
  | Done a _ => Some a
  | Panic _ => None
  end.

(** The actions a run started in [w] added to the journal. *)
Definition performed {A} (w : World) (o : Outcome A) : list Action :=
  drop (length (journal w)) (journal (outcomeWorld o)).

Definition isImport (a : Action) : bool :=
  match a with ActImport _ _ => true | _ => false end.

Definition isStatusWrite (a : Action) : bool :=
  match a with ActUpdateStatus _ _ => true | _ => false end.

Definition isPatch (a : Action) : bool :=
  match a with
  | ActPatchManagedCluster _ _ | ActPatchClusterDeployment _ _ _ => true
  | _ => false
  end.

Definition isEvent (a : Action) : bool :=
  match a with ActEvent _ _ => true | _ => false end.

(** Neither an application of manifests nor a status write. *)
Definition quiet (a : Action) : bool :=
  negb (isImport a) && negb (isStatusWrite a).

(** [w1] answers every read of the reconciler as [w] does, the cluster
    records apart. *)
Definition sameReads (w w1 : World) : Prop :=
  clusterDeployments w1 = clusterDeployments w
  /\ kubeSecrets w1 = kubeSecrets w
  /\ autoImportSecrets w1 = autoImportSecrets w
  /\ importSecrets w1 = importSecrets w
  /\ klusterletWorks w1 = klusterletWorks w
  /\ failures w1 = failures w.

(** No call to a collaborator fails. *)
Definition noFailures (w : World) : Prop := forall c, failures w c = None.

(** The test of the fourth gate: bound to a pool and not claimed yet. *)
Definition unclaimed (clusterDeployment : ClusterDeployment) : bool :=
  match ClusterPoolRef clusterDeployment with
  | Some ref => Time_IsZero (ClaimedTimestamp ref)
  | None => false
  end.

Section Readiness.
Context `{Imports}.

(** The value [setCreatedViaAnnotation] wants for the annotation. *)
Definition desiredCreatedVia (clusterDeployment : ClusterDeployment) : string :=
  match AgentBareMetal (SpecPlatform clusterDeployment) with
  | Some _ => CreatedViaAI
  | None => CreatedViaHive
  end.

(** The work objects of the namespace that carry the bootstrap label. *)
Definition labeledWorks (clusterName : string) (w : World) : list ManifestWork :=
  filter (fun work => Namespace (workMeta work) = clusterName
                      /\ Labels (workMeta work) !! KlusterletWorksLabel = Some "true")
         (klusterletWorks w).

Definition importSecretName (clusterName : string) : string :=
  clusterName +:+ "-" +:+ ImportSecretNameSuffix.

(** Gates 1 to 4 of the specification hold for cluster [clusterName]: the
    install record exists and is not being deleted, the cluster record
    exists (stored under its name), the cluster is installed and, when it
    comes from a pool, claimed. *)
Definition installedAndClaimed (clusterName : string) (w : World)
    (clusterDeployment : ClusterDeployment) (managedCluster : ManagedCluster) : Prop :=
  clusterDeployments w !! (clusterName, clusterName) = Some clusterDeployment
  /\ Time_IsZero (DeletionTimestamp (deploymentMeta clusterDeployment)) = true
  /\ managedClusters w !! clusterName = Some managedCluster
  /\ Name (clusterMeta managedCluster) = clusterName
  /\ Installed clusterDeployment = true
  /\ unclaimed clusterDeployment = false.

(** The admin credential secret named by the install record is there. *)
Definition credentialResolves (clusterName : string) (w : World)
    (clusterDeployment : ClusterDeployment) (hiveSecret : Secret) : Prop :=
  exists clusterMetadata,
    SpecClusterMetadata clusterDeployment = Some clusterMetadata
    /\ kubeSecrets w !! (clusterName, AdminKubeconfigSecretRef_Name clusterMetadata)
       = Some hiveSecret.

End Readiness.

(** ** Concrete inputs for the examples

    The two work-object suffixes, the finalizer and the import-secret suffix
    are those of the scenarios of the specification (8); the remaining
    names are fixed for the examples; [EqualFold] is run on ASCII names. *)
Module Examples.

#[global] Instance exampleImports : Imports := {|
  HostedKlusterletManifestworkSuffix := "klusterlet";
  HostedManagedKubeconfigManifestworkSuffix := "kubeconfig";
  KlusterletDeployModeAnnotation := "import.open-cluster-management.io/klusterlet-deploy-mode";
  KlusterletDeployModeHosted := "Hosted";
  CreatedViaAnnotation := "open-cluster-management/created-via";
  CreatedViaDiscovery := "discovery";
  CreatedViaAI := "assisted-installer";
  CreatedViaHive := "hive";
  ImportFinalizer := "legacy-import";
  AutoImportSecretName := "auto-import-secret";
  ImportSecretNameSuffix := "import";
  KlusterletWorksLabel := "import.open-cluster-management.io/klusterlet-works";
  EqualFold := asciiEqualFold
|}.

Definition meta (namespace name : string) : ObjectMeta :=
  {| Name := name; Namespace := namespace; ResourceVersion := "1";
     Labels := ∅; Annotations := ∅; Finalizers := [];
     DeletionTimestamp := None |}.

Definition work (namespace name : string) (raw : list string) : ManifestWork :=
  {| workMeta := meta namespace name;
     Manifests := map (fun r => {| Raw := list_ascii_of_string r |}) raw |}.

Definition secret (namespace name version : string)
    (data : gmap string bytes) : Secret :=
  {| secretMeta :=
       {| Name := name; Namespace := namespace; ResourceVersion := version;
          Labels := ∅; Annotations := ∅; Finalizers := [];
          DeletionTimestamp := None |};
     Data := data |}.

Definition payload (s : string) : gmap string bytes :=
  {[ "import.yaml" := list_ascii_of_string s ]}.

(** A bootstrap work object of cluster [c1]. *)
Definition labeledWork (name : string) : ManifestWork :=
  {| workMeta :=
       {| Name := name; Namespace := "c1"; ResourceVersion := "1";
          Labels := {[ KlusterletWorksLabel := "true" ]};
          Annotations := ∅; Finalizers := []; DeletionTimestamp := None |};
     Manifests := [] |}.

Definition deployment (finalizers : list string) (deletion : option Time)
    (installed : bool) (metadata : option ClusterMetadata) : ClusterDeployment :=
  {| deploymentMeta :=
       {| Name := "c1"; Namespace := "c1"; ResourceVersion := "1";
          Labels := ∅; Annotations := ∅; Finalizers := finalizers;
          DeletionTimestamp := deletion |};
     Installed := installed;
     ClusterPoolRef := None;
     SpecClusterMetadata := metadata;
     SpecPlatform := {| AgentBareMetal := None |} |}.

Definition cluster (annotations : gmap string string) : ManagedCluster :=
  {| clusterMeta := withAnnotations (meta "" "c1") annotations;
     Conditions := [] |}.

Definition adminMetadata : ClusterMetadata :=
  {| AdminKubeconfigSecretRef_Name := "c1-admin-kubeconfig" |}.

Definition adminSecret : Secret :=
  secret "c1" "c1-admin-kubeconfig" "1" (payload "kubeconfig").

Definition importSecret : Secret :=
  secret "c1" "c1-import" "1" (payload "manifests").

Definition noFailure : Call -> option error := fun _ => None.

(** The end-to-end scenario of the specification: cluster [c1] installed,
    not from a pool, cluster record present, no auto-import secret, the
    admin secret and the import secret present, and [works] as its
    bootstrap work objects. *)
Definition scenario (d : ClusterDeployment) (works : list ManifestWork)
    (imports : gmap (string * string) Secret)
    (fails : Call -> option error) : World :=
  {| clusterDeployments := {[ ("c1", "c1") := d ]};
     managedClusters := {[ "c1" := cluster ∅ ]};
     kubeSecrets := {[ ("c1", "c1-admin-kubeconfig") := adminSecret ]};
     autoImportSecrets := ∅;
     importSecrets := imports;
     klusterletWorks := works;
     failures := fails;
     journal := [] |}.

Definition ready : World :=
  scenario (deployment [] None true (Some adminMetadata))
           [labeledWork "c1-klusterlet-crds"; labeledWork "c1-klusterlet"]
           {[ ("c1", "c1-import") := importSecret ]}
           noFailure.

Definition c1 : Request := requestFor "c1" "c1".

Definition twoWorks : list ManifestWork :=
  [labeledWork "c1-klusterlet-crds"; labeledWork "c1-klusterlet"].





Definition connectionRefused : error :=
  {| Error_ := "connection refused"; IsNotFound := false |}.

Definition conflict : error :=
  {| Error_ := "the object has been modified"; IsNotFound := false |}.

Definition failingOn (call : Call) (err : error) : Call -> option error :=
  fun c =>
    match call, c with
    | GenerateClientFromSecret, GenerateClientFromSecret
    | ImportManagedClusterFromSecret, ImportManagedClusterFromSecret
    | UpdateManagedClusterStatus, UpdateManagedClusterStatus => Some err
    | _, _ => None
    end.


(** Everything is there, and applying the manifests fails. *)
Definition applyFails : World :=
  scenario (deployment [] None true (Some adminMetadata)) twoWorks
           {[ ("c1", "c1-import") := importSecret ]}
           (failingOn ImportManagedClusterFromSecret connectionRefused).

(** Applying the manifests and writing the condition both fail. *)
Definition applyAndStatusFail : World :=
  scenario (deployment [] None true (Some adminMetadata)) twoWorks
           {[ ("c1", "c1-import") := importSecret ]}
           (fun c =>
              match c with
              | ImportManagedClusterFromSecret => Some connectionRefused
              | UpdateManagedClusterStatus => Some conflict
              | _ => None
              end).

(** An installed cluster deployment without cluster metadata. *)
Definition noMetadata : World :=
  scenario (deployment [] None true None) twoWorks
           {[ ("c1", "c1-import") := importSecret ]} noFailure.

(** A cluster deployment being deleted, with the given finalizers. *)
Definition deleting (finalizers : list string) : World :=
  scenario (deployment finalizers (Some 1%N) true (Some adminMetadata)) twoWorks
           {[ ("c1", "c1-import") := importSecret ]} noFailure.

Definition autoImportSecret : Secret :=
  secret "c1" "auto-import-secret" "1" (payload "token").

(** The auto-import handler owns cluster [c1]. *)
Definition autoImportOwned : World :=
  {| clusterDeployments := clusterDeployments ready;
     managedClusters := managedClusters ready;
     kubeSecrets := kubeSecrets ready;
     autoImportSecrets := {[ ("c1", "auto-import-secret") := autoImportSecret ]};
     importSecrets := importSecrets ready;
     klusterletWorks := klusterletWorks ready;
     failures := failures ready;
     journal := journal ready |}.

(** Everything is there, and the patch of the cluster record fails. *)
Definition annotationPatchFails : World :=
  scenario (deployment [] None true (Some adminMetadata)) twoWorks
           {[ ("c1", "c1-import") := importSecret ]}
           (fun c => match c with
                     | PatchManagedCluster => Some conflict
                     | _ => None
                     end).

(** The install record is being deleted with the legacy finalizer alone,
    and the patch of the record fails. *)
Definition deletingPatchFails : World :=
  scenario (deployment ["legacy-import"] (Some 1%N) true (Some adminMetadata)) twoWorks
           {[ ("c1", "c1-import") := importSecret ]}
           (fun c => match c with
                     | PatchClusterDeployment => Some conflict
                     | _ => None
                     end).

End Examples.

(** * Properties *)

(** ** Suffixes of Go strings *)
Section StringFacts.

Abbreviation chars := list_ascii_of_string.

Lemma chars_length s : length (chars s) = String.length s.
Proof. induction s as [|c s IH]; simpl; [done | by rewrite IH]. Qed.

Lemma chars_app s t : chars (s +:+ t) = chars s ++ chars t.
Proof.
  induction s as [|c s IH]; [done|].
  change (String c s +:+ t) with (String c (s +:+ t)).
  simpl. by rewrite IH.
Qed.

Lemma chars_inj s t : chars s = chars t -> s = t.
Proof.
  intros E. rewrite <- (string_of_list_ascii_of_string s),
    <- (string_of_list_ascii_of_string t). by rewrite E.
Qed.

Lemma chars_substring s : forall n m,
  chars (substring n m s) = take m (drop n (chars s)).
Proof.
  induction s as [|c s IH]; intros [|n] [|m]; simpl; rewrite ?IH; try done.
  all: by destruct (drop n (chars s)).
Qed.

Lemma HasSuffix_spec s suffix :
  HasSuffix s suffix = true <-> chars suffix `suffix_of` chars s.
Proof.
  unfold HasSuffix. rewrite andb_true_iff, Nat.leb_le, String.eqb_eq.
  split.
  - intros [Hle E]. apply (f_equal chars) in E.
    rewrite chars_substring in E.
    rewrite take_ge in E
      by (rewrite length_drop, !chars_length; lia).
    exists (take (String.length s - String.length suffix) (chars s)).
    by rewrite <- E, take_drop.
  - intros [k E].
    assert (String.length s = length k + String.length suffix) as Hlen.
    { rewrite <- !chars_length, E, length_app. lia. }
    split; [lia|]. apply chars_inj.
    rewrite chars_substring, E.
    replace (String.length s - String.length suffix) with (length k) by lia.
    rewrite drop_app_length, take_ge; [done|].
    rewrite chars_length. lia.
Qed.

Lemma HasSuffix_app p suffix : HasSuffix (p +:+ suffix) suffix = true.
Proof. apply HasSuffix_spec. rewrite chars_app. by exists (chars p). Qed.

Lemma HasSuffix_inv s suffix :
  HasSuffix s suffix = true -> exists p, s = p +:+ suffix.
Proof.
  intros [k E]%HasSuffix_spec. exists (string_of_list_ascii k).
  apply chars_inj.
  by rewrite chars_app, list_ascii_of_string_of_list_ascii.
Qed.

Lemma TrimSuffix_app p suffix : TrimSuffix (p +:+ suffix) suffix = p.
Proof.
  unfold TrimSuffix. rewrite HasSuffix_app. apply chars_inj.
  rewrite chars_substring, chars_app. simpl. rewrite drop_0.
  rewrite <- !chars_length, chars_app, length_app.
  replace (length (chars p) + length (chars suffix) - length (chars suffix))
    with (length (chars p)) by lia.
  by rewrite take_app_length.
Qed.

Lemma TrimSuffix_none s suffix : HasSuffix s suffix = false -> TrimSuffix s suffix = s.
Proof. unfold TrimSuffix. by intros ->. Qed.

(** Two suffixes of one string: one is a suffix of the other. *)
Lemma HasSuffix_both s a b :
  HasSuffix s a = true -> HasSuffix s b = true ->
  HasSuffix a b = true \/ HasSuffix b a = true.
Proof.
  rewrite !HasSuffix_spec. intros Ha Hb.
  destruct (suffix_weak_total _ _ _ Ha Hb); auto.
Qed.

End StringFacts.

(** ** The event router (pkg/controller/hosted/manager.go) *)
Section RouterFacts.
Context `{Imports}.
Import Hosted.

Lemma route_HostedWork_update e :
  route HostedWorkWatch (EvUpdate e) =
  if HostedWork_UpdateFunc e then Some (HostedWork_MapFunc (ObjectNew e)) else None.
Proof. reflexivity. Qed.

(** With two suffixes of which neither ends with the other (such as two
    different words of the same length), no name passes the guard of the
    update predicate: work-object updates are never routed. *)
Lemma HostedWork_UpdateFunc_never e :
  HasSuffix HostedKlusterletManifestworkSuffix
            HostedManagedKubeconfigManifestworkSuffix = false ->
  HasSuffix HostedManagedKubeconfigManifestworkSuffix
            HostedKlusterletManifestworkSuffix = false ->
  HostedWork_UpdateFunc e = false.
Proof.
  intros H1 H2. unfold HostedWork_UpdateFunc.
  destruct (HasSuffix (GetName (ObjectNew e)) HostedKlusterletManifestworkSuffix) eqn:Ea;
    [|done].
  destruct (HasSuffix (GetName (ObjectNew e)) HostedManagedKubeconfigManifestworkSuffix) eqn:Eb;
    [|done].
  destruct (HasSuffix_both _ _ _ Ea Eb); congruence.
Qed.

Lemma Secret_UpdateFunc_secrets (old new : Secret) :
  Secret_UpdateFunc {| ObjectOld := ObjSecret old; ObjectNew := ObjSecret new |}
  = negb (bool_decide (Data old = Data new)).
Proof. reflexivity. Qed.

(** The key computed by the map function of the work watch, in the order
    the two suffix tests take effect. *)
Lemma HostedWork_MapFunc_cases o :
  HostedWork_MapFunc o =
  let key :=
    if HasSuffix (GetName o) HostedManagedKubeconfigManifestworkSuffix
    then TrimSuffix (GetName o) ("-" +:+ HostedManagedKubeconfigManifestworkSuffix)
    else if HasSuffix (GetName o) HostedKlusterletManifestworkSuffix
         then TrimSuffix (GetName o) ("-" +:+ HostedKlusterletManifestworkSuffix)
         else GetNamespace o in
  requestFor key key.
Proof.
  unfold HostedWork_MapFunc. simpl.
  by destruct (HasSuffix (GetName o) HostedManagedKubeconfigManifestworkSuffix),
              (HasSuffix (GetName o) HostedKlusterletManifestworkSuffix).
Qed.

Lemma HasSuffix_separated p suffix : HasSuffix (p +:+ "-" +:+ suffix) suffix = true.
Proof.
  apply HasSuffix_spec. rewrite !chars_app.
  exists (list_ascii_of_string p ++ list_ascii_of_string "-").
  by rewrite <- app_assoc.
Qed.

End RouterFacts.

(** C1 (the code departs from it). The claim: an update of a bootstrap work
    object is routed exactly when its manifests changed, in particular when
    the name ends in exactly one of the two hosted suffixes. The update
    predicate returns false as soon as the name of the new object lacks one
    of the two suffixes, so an update of a work object whose name ends in
    only one of them is not routed, whatever happened to its manifests. *)
Theorem HostedWork_UpdateFunc_one_suffix `{Imports} (e : UpdateEvent) :
  HasSuffix (GetName (ObjectNew e)) HostedKlusterletManifestworkSuffix = false
  \/ HasSuffix (GetName (ObjectNew e)) HostedManagedKubeconfigManifestworkSuffix = false ->
  Hosted.HostedWork_UpdateFunc e = false
  /\ route Hosted.HostedWorkWatch (EvUpdate e) = None.
Proof.
  intros Hone.
  assert (Hosted.HostedWork_UpdateFunc e = false) as E.
  { unfold Hosted.HostedWork_UpdateFunc. by destruct Hone as [-> | ->]; [|rewrite orb_true_r]. }
  split; [done|]. by rewrite route_HostedWork_update, E.
Qed.

(** The failing input of C1: the klusterlet work object of [cluster-a],
    updated with changed manifests. *)
Lemma HostedWork_UpdateFunc_one_suffix_witness :
  let old := Examples.work "hosting" "cluster-a-klusterlet" ["v1"] in
  let new := Examples.work "hosting" "cluster-a-klusterlet" ["v2"] in
  let e := {| ObjectOld := ObjManifestWork old; ObjectNew := ObjManifestWork new |} in
  HasSuffix (GetName (ObjectNew e)) HostedKlusterletManifestworkSuffix = true
  /\ ManifestsEqual (Manifests new) (Manifests old) = false
  /\ Hosted.HostedWork_UpdateFunc e = false
  /\ route Hosted.HostedWorkWatch (EvUpdate e) = None.
Proof.
  intros old new e.
  split; [reflexivity|]. split; [reflexivity|].
  apply (HostedWork_UpdateFunc_one_suffix e). right. reflexivity.
Defined.

(** C2 as stated fails: a work object whose name ends with a suffix that no
    separator precedes is keyed by its whole name, which is neither its
    namespace nor its name without the suffix. *)
Lemma HostedWork_MapFunc_counterexample :
  let o := ObjManifestWork (Examples.work "cluster-b" "xklusterlet" []) in
  let key := nnName (reqNamespacedName (Hosted.HostedWork_MapFunc o)) in
  HasSuffix (GetName o) HostedKlusterletManifestworkSuffix = true
  /\ key = "xklusterlet"
  /\ key <> GetNamespace o
  /\ ~ (GetName o = key +:+ "-" +:+ HostedKlusterletManifestworkSuffix
        \/ GetName o = key +:+ "-" +:+ HostedManagedKubeconfigManifestworkSuffix).
Proof.
  intros o key. repeat split; try reflexivity; [discriminate|].
  intros [E | E]; vm_compute in E; discriminate.
Qed.

(** C2 (amended). The key of a work object is its namespace when its name
    ends with neither suffix. When the name is [p-suffix] the key is [p];
    the kubeconfig suffix is tested last and prevails. When the name ends
    with a suffix that the separator does not precede, the key is the whole
    name. *)
Theorem HostedWork_MapFunc_key `{Imports} (o : Object) :
  let name := GetName o in
  let klusterlet := HostedKlusterletManifestworkSuffix in
  let kubeconfig := HostedManagedKubeconfigManifestworkSuffix in
  (HasSuffix name klusterlet = false -> HasSuffix name kubeconfig = false ->
   Hosted.HostedWork_MapFunc o = requestFor (GetNamespace o) (GetNamespace o))
  /\ (forall p, name = p +:+ "-" +:+ kubeconfig ->
      Hosted.HostedWork_MapFunc o = requestFor p p)
  /\ (forall p, name = p +:+ "-" +:+ klusterlet -> HasSuffix name kubeconfig = false ->
      Hosted.HostedWork_MapFunc o = requestFor p p)
  /\ (HasSuffix name kubeconfig = true ->
      HasSuffix name ("-" +:+ kubeconfig) = false ->
      Hosted.HostedWork_MapFunc o = requestFor name name)
  /\ (HasSuffix name klusterlet = true -> HasSuffix name kubeconfig = false ->
      HasSuffix name ("-" +:+ klusterlet) = false ->
      Hosted.HostedWork_MapFunc o = requestFor name name).
Proof.
  intros name klusterlet kubeconfig. rewrite HostedWork_MapFunc_cases.
  fold name klusterlet kubeconfig. cbv zeta.
  split; [|split; [|split; [|split]]].
  - by intros -> ->.
  - intros p E. rewrite E, HasSuffix_separated. by rewrite TrimSuffix_app.
  - intros p E ->. rewrite E, HasSuffix_separated. by rewrite TrimSuffix_app.
  - intros -> E. by rewrite TrimSuffix_none.
  - intros -> -> E. by rewrite TrimSuffix_none.
Qed.

(** The three scenarios of C2 (hosted-suffix recovery). *)
Lemma HostedWork_MapFunc_key_witness :
  Hosted.HostedWork_MapFunc
    (ObjManifestWork (Examples.work "hosting" "cluster-a-klusterlet" []))
  = requestFor "cluster-a" "cluster-a"
  /\ Hosted.HostedWork_MapFunc
       (ObjManifestWork (Examples.work "hosting" "cluster-a-kubeconfig" []))
     = requestFor "cluster-a" "cluster-a"
  /\ Hosted.HostedWork_MapFunc
       (ObjManifestWork (Examples.work "cluster-b" "unrelated" []))
     = requestFor "cluster-b" "cluster-b"
  /\ Hosted.HostedWork_MapFunc
       (ObjManifestWork (Examples.work "cluster-b" "mykubeconfig" []))
     = requestFor "mykubeconfig" "mykubeconfig"
  /\ Hosted.HostedWork_MapFunc
       (ObjManifestWork (Examples.work "cluster-b" "xklusterlet" []))
     = requestFor "xklusterlet" "xklusterlet".
Proof.
  split; [|split; [|split; [|split]]].
  - destruct (HostedWork_MapFunc_key
                (ObjManifestWork (Examples.work "hosting" "cluster-a-klusterlet" [])))
      as (_ & _ & Hk & _).
    apply (Hk "cluster-a"); reflexivity.
  - destruct (HostedWork_MapFunc_key
                (ObjManifestWork (Examples.work "hosting" "cluster-a-kubeconfig" [])))
      as (_ & Hk & _).
    apply (Hk "cluster-a"); reflexivity.
  - destruct (HostedWork_MapFunc_key
                (ObjManifestWork (Examples.work "cluster-b" "unrelated" [])))
      as (Hk & _).
    apply Hk; reflexivity.
  - destruct (HostedWork_MapFunc_key
                (ObjManifestWork (Examples.work "cluster-b" "mykubeconfig" [])))
      as (_ & _ & _ & Hk & _).
    apply Hk; reflexivity.
  - destruct (HostedWork_MapFunc_key
                (ObjManifestWork (Examples.work "cluster-b" "xklusterlet" [])))
      as (_ & _ & _ & _ & Hk).
    apply Hk; reflexivity.
Defined.

(** C3 as stated fails: the deletion of an import secret is not routed, and
    neither is the creation of one that lacks the hosted deploy-mode
    annotation. *)
Lemma ImportSecretWatch_counterexample :
  route Hosted.ImportSecretWatch
        (EvDelete {| deleteObject := ObjSecret Examples.importSecret |}) = None
  /\ route Hosted.ImportSecretWatch
           (EvCreate {| createObject := ObjSecret Examples.importSecret |}) = None.
Proof. split; reflexivity. Qed.

(** C3 (amended). For import secrets, deletions and generic events are never
    routed; a creation is routed, keyed by the namespace, exactly when the
    secret carries the hosted deploy-mode annotation (compared with
    [EqualFold]); an update of a secret is routed exactly when its [Data]
    changed. *)
Theorem ImportSecretWatch_routes `{Imports} :
  (forall d, route Hosted.ImportSecretWatch (EvDelete d) = None)
  /\ (forall g, route Hosted.ImportSecretWatch (EvGeneric g) = None)
  /\ (forall c,
        route Hosted.ImportSecretWatch (EvCreate c) =
        if EqualFold (mapIndex (GetAnnotations (createObject c))
                               KlusterletDeployModeAnnotation)
                     KlusterletDeployModeHosted
        then Some (requestFor (GetNamespace (createObject c))
                              (GetNamespace (createObject c)))
        else None)
  /\ (forall old new : Secret,
        route Hosted.ImportSecretWatch
              (EvUpdate {| ObjectOld := ObjSecret old; ObjectNew := ObjSecret new |}) =
        if decide (Data old = Data new) then None
        else Some (requestFor (Namespace (secretMeta new))
                              (Namespace (secretMeta new)))).
Proof.
  split; [done|]. split; [done|]. split.
  - intros c. unfold route. simpl. unfold Hosted.isHostedModeObject.
    by destruct (EqualFold _ _).
  - intros old new. unfold route. simpl.
    rewrite Secret_UpdateFunc_secrets.
    by destruct (decide (Data old = Data new));
      [rewrite bool_decide_eq_true_2 | rewrite bool_decide_eq_false_2].
Qed.



(** ** Stores and journal under the world updates *)

Lemma clusterDeployments_record a w :
  clusterDeployments (record a w) = clusterDeployments w.
Proof. reflexivity. Qed.

Lemma managedClusters_record a w :
  managedClusters (record a w) = managedClusters w.
Proof. reflexivity. Qed.

Lemma failures_record a w : failures (record a w) = failures w.
Proof. reflexivity. Qed.

Lemma journal_record a w : journal (record a w) = journal w ++ [a].
Proof. reflexivity. Qed.

Lemma journal_setManagedClusters f w :
  journal (setManagedClusters f w) = journal w.
Proof. reflexivity. Qed.

Lemma journal_setClusterDeployments f w :
  journal (setClusterDeployments f w) = journal w.
Proof. reflexivity. Qed.

Lemma managedClusters_setManagedClusters f w :
  managedClusters (setManagedClusters f w) = f (managedClusters w).
Proof. reflexivity. Qed.

Lemma clusterDeployments_setClusterDeployments f w :
  clusterDeployments (setClusterDeployments f w) = f (clusterDeployments w).
Proof. reflexivity. Qed.

Create Rewrite HintDb world.
#[local] Hint Rewrite clusterDeployments_record managedClusters_record
  failures_record journal_record journal_setManagedClusters
  journal_setClusterDeployments managedClusters_setManagedClusters
  clusterDeployments_setClusterDeployments : world.

Lemma performed_same {A} (r : A) w : performed w (Done r w) = [].
Proof. unfold performed. simpl. apply drop_all. Qed.

Lemma performed_app {A} (o : Outcome A) w new :
  journal (outcomeWorld o) = journal w ++ new -> performed w o = new.
Proof. unfold performed. intros ->. apply drop_app_length. Qed.

(** Unfolding the monad and the collaborators, in a hypothesis or in the
    goal. *)
Ltac unfold_run_in H :=
  unfold getFrom, listManifestWorks, helpers_GenerateClientFromSecret,
    helpers_ImportManagedClusterFromSecret, helpers_UpdateManagedClusterStatus,
    client_Patch_ManagedCluster, client_Patch_ClusterDeployment, recorder_Eventf,
    mbind, M_bind, bind, ret, failing, gets, modify, panic in H;
  cbn beta iota in H.

Ltac unfold_run :=
  unfold getFrom, listManifestWorks, helpers_GenerateClientFromSecret,
    helpers_ImportManagedClusterFromSecret, helpers_UpdateManagedClusterStatus,
    client_Patch_ManagedCluster, client_Patch_ClusterDeployment, recorder_Eventf,
    mbind, M_bind, bind, ret, failing, gets, modify, panic;
  cbn beta iota.

(** ** Merging and patching annotations *)

Lemma MergeMap_singleton (existing : gmap string string) k v :
  MergeMap existing {[ k := v ]} =
  (bool_decide (existing !! k <> Some v), <[k := v]> existing).
Proof.
  unfold MergeMap. rewrite <- insert_union_singleton_l. f_equal.
  apply bool_decide_ext. split.
  - intros Hne E. apply Hne. by apply insert_id.
  - intros Hne E. apply Hne. rewrite <- E. apply lookup_insert_eq.
Qed.

Lemma annotationsPatch_insert (a : gmap string string) k v :
  a !! k <> Some v -> annotationsPatch a (<[k := v]> a) = {[ k := Some v ]}.
Proof.
  intros Hne. apply map_eq. intros i. unfold annotationsPatch.
  rewrite lookup_merge. destruct (decide (k = i)) as [<- | Hi].
  - rewrite lookup_insert_eq, lookup_singleton_eq. unfold diag_None.
    repeat case_match; simplify_eq; done.
  - rewrite lookup_insert_ne, lookup_singleton_ne by done. unfold diag_None.
    repeat case_match; simplify_eq; done.
Qed.

Lemma applyAnnotationsPatch_singleton (s : gmap string string) k v :
  applyAnnotationsPatch {[ k := Some v ]} s = <[k := v]> s.
Proof.
  apply map_eq. intros i. unfold applyAnnotationsPatch. rewrite lookup_merge.
  destruct (decide (k = i)) as [<- | Hi].
  - rewrite lookup_insert_eq, lookup_singleton_eq. by destruct (s !! k).
  - rewrite lookup_insert_ne, lookup_singleton_ne by done. by destruct (s !! i).
Qed.

Lemma SetStatusCondition_elem conds c : c ∈ SetStatusCondition conds c.
Proof.
  induction conds as [|x rest IH]; simpl; [set_solver|].
  destruct (String.eqb (condType x) (condType c)); set_solver.
Qed.

(** ** The two convergence helpers, as equations *)
Section HelperFacts.
Context `{Imports}.
Import ClusterDeploymentController.

Lemma setCreatedViaAnnotation_run cd cluster w :
  let annotations := Annotations (clusterMeta cluster) in
  let name := Name (clusterMeta cluster) in
  let desired := desiredCreatedVia cd in
  let w1 := record (ActPatchManagedCluster name {[ CreatedViaAnnotation := Some desired ]}) w in
  setCreatedViaAnnotation cd cluster w =
  if String.eqb (mapIndex annotations CreatedViaAnnotation) CreatedViaDiscovery
  then Done None w
  else if decide (annotations !! CreatedViaAnnotation = Some desired)
  then Done None w
  else match failures w PatchManagedCluster with
       | Some err => Done (Some err) w1
       | None =>
           match managedClusters w !! name with
           | None =>
               Done (Some (NewNotFound
                             "managedclusters.cluster.open-cluster-management.io" name)) w1
           | Some server =>
               Done None
                 (record (ActEvent "ManagedClusterLabelsUpdated"
                            ("The managed cluster " +:+ name +:+ " labels is added"))
                    (setManagedClusters
                       <[name := clusterWithAnnotations server
                                   (<[CreatedViaAnnotation := desired]>
                                      (Annotations (clusterMeta server)))]> w1))
           end
       end.
Proof.
  intros annotations name desired w1. unfold setCreatedViaAnnotation.
  fold annotations.
  destruct (String.eqb _ CreatedViaDiscovery); [done|].
  assert (MergeMap annotations
            match AgentBareMetal (SpecPlatform cd) with
            | Some _ => {[ CreatedViaAnnotation := CreatedViaAI ]}
            | None => {[ CreatedViaAnnotation := CreatedViaHive ]}
            end
          = (bool_decide (annotations !! CreatedViaAnnotation <> Some desired),
             <[CreatedViaAnnotation := desired]> annotations)) as ->.
  { unfold desired, desiredCreatedVia.
    destruct (AgentBareMetal (SpecPlatform cd)); apply MergeMap_singleton. }
  destruct (decide (annotations !! CreatedViaAnnotation = Some desired)) as [E | E].
  { by rewrite bool_decide_eq_false_2 by (intros ?; done). }
  rewrite bool_decide_eq_true_2 by done. simpl.
  unfold client_Patch_ManagedCluster. simpl. fold annotations name.
  rewrite annotationsPatch_insert by done.
  unfold mbind, M_bind, bind, ret, modify, gets, failing, recorder_Eventf. simpl.
  subst w1.
  destruct (failures w PatchManagedCluster); [reflexivity|].
  change (managedClusters (record ?a w)) with (managedClusters w).
  destruct (managedClusters w !! name) as [server|]; [|reflexivity].
  by rewrite applyAnnotationsPatch_singleton.
Qed.

(** Annotation convergence never panics, touches the cluster records and
    the journal only, and neither applies manifests nor writes a status. *)
Lemma setCreatedViaAnnotation_frame cd cluster w :
  exists r w1 new,
    setCreatedViaAnnotation cd cluster w = Done r w1
    /\ sameReads w w1
    /\ journal w1 = journal w ++ new
    /\ forallb quiet new = true
    /\ (forall k, is_Some (managedClusters w !! k) -> is_Some (managedClusters w1 !! k)).
Proof.
  rewrite setCreatedViaAnnotation_run.
  repeat case_match.
  all: eexists _, _, _; split; [reflexivity|].
  all: split; [by repeat split|].
  all: try (split; [symmetry; apply app_nil_r|]; split; [done|]; done).
  all: simpl.
  - split; [reflexivity|]. split; [done|]. done.
  - split; [by rewrite <- app_assoc|]. split; [done|].
    intros k Hk. destruct (decide (Name (clusterMeta cluster) = k)) as [<- | ?].
    + rewrite lookup_insert_eq. by eexists.
    + by rewrite lookup_insert_ne.
  - split; [reflexivity|]. split; [done|]. done.
Qed.

(** Without a failing patch, and with the cluster record stored under its
    name, annotation convergence succeeds. *)
Lemma setCreatedViaAnnotation_succeeds cd cluster w :
  failures w PatchManagedCluster = None ->
  is_Some (managedClusters w !! Name (clusterMeta cluster)) ->
  exists w1 new,
    setCreatedViaAnnotation cd cluster w = Done None w1
    /\ sameReads w w1
    /\ journal w1 = journal w ++ new
    /\ forallb quiet new = true.
Proof.
  intros Hf [server Hs].
  destruct (setCreatedViaAnnotation_frame cd cluster w)
    as (r & w1 & new & Hrun & Hsame & Hj & Hq & _).
  exists w1, new. split; [|done].
  rewrite Hrun. f_equal.
  rewrite setCreatedViaAnnotation_run in Hrun. rewrite Hf, Hs in Hrun.
  repeat case_match; by simplify_eq.
Qed.

Lemma removeImportFinalizer_run cd w :
  let namespace := Namespace (deploymentMeta cd) in
  let name := Name (deploymentMeta cd) in
  let w1 := record (ActPatchClusterDeployment namespace name []) w in
  removeImportFinalizer cd w =
  if decide (Finalizers (deploymentMeta cd) = [ImportFinalizer])
  then match failures w PatchClusterDeployment with
       | Some err => Done (Some err) w1
       | None =>
           match clusterDeployments w !! (namespace, name) with
           | None => Done (Some (NewNotFound "clusterdeployments.hive.openshift.io" name)) w1
           | Some server =>
               Done None
                 (record (ActEvent "ClusterDeploymentFinalizerRemoved"
                            ("The clusterdeployment " +:+ name +:+ " finalizer "
                             +:+ ImportFinalizer +:+ " is removed"))
                    (setClusterDeployments
                       <[(namespace, name) := deploymentWithFinalizers server []]> w1))
           end
       end
  else Done None w.
Proof.
  intros namespace name w1. unfold removeImportFinalizer.
  destruct (decide (Finalizers (deploymentMeta cd) = [ImportFinalizer])) as [E | E].
  - rewrite E. simpl. rewrite String.eqb_refl. simpl.
    unfold_run. simpl. fold namespace name. subst w1.
    destruct (failures w PatchClusterDeployment); [reflexivity|].
    autorewrite with world.
    destruct (clusterDeployments w !! (namespace, name)); [|reflexivity].
    rewrite E. by destruct (decide ([ImportFinalizer] = [])).
  - destruct (Finalizers (deploymentMeta cd)) as [|x [|y l]]; simpl.
    + done.
    + destruct (String.eqb x ImportFinalizer) eqn:Ex; simpl; [|done].
      apply String.eqb_eq in Ex. by subst.
    + by destruct (String.eqb x ImportFinalizer || _).
Qed.

Lemma removeImportFinalizer_frame cd w :
  exists r w1 new,
    removeImportFinalizer cd w = Done r w1
    /\ journal w1 = journal w ++ new
    /\ forallb quiet new = true.
Proof.
  rewrite removeImportFinalizer_run.
  repeat case_match.
  all: eexists _, _, _; split; [reflexivity|]; autorewrite with world.
  all: try (split; [symmetry; apply app_nil_r|done]).
  - split; [reflexivity|done].
  - split; [by rewrite <- app_assoc|done].
  - split; [reflexivity|done].
Qed.

End HelperFacts.

(** ** The three ways a reconciliation ends *)
Section ReconcileFacts.
Context `{Imports}.
Import ClusterDeploymentController.

(** A reconciliation either applies the manifests (all gates passed: it
    then attempts the import once, writes the condition once and returns
    the aggregate of the two errors), or panics on the missing cluster
    metadata, or returns without applying manifests or writing a status. *)
Lemma Reconcile_outcome req w :
  let n := nnName (reqNamespacedName req) in
  (exists cd mc md hiveSecret importSecret w1 w2 new,
     clusterDeployments w !! (n, n) = Some cd
     /\ Time_IsZero (DeletionTimestamp (deploymentMeta cd)) = true
     /\ Installed cd = true
     /\ unclaimed cd = false
     /\ managedClusters w !! n = Some mc
     /\ (failures w GetAutoImportSecret = None ->
         autoImportSecrets w !! (n, AutoImportSecretName) = None)
     /\ SpecClusterMetadata cd = Some md
     /\ kubeSecrets w !! (n, AdminKubeconfigSecretRef_Name md) = Some hiveSecret
     /\ importSecrets w !! (n, importSecretName n) = Some importSecret
     /\ length (labeledWorks n w) = 2
     /\ journal w1 = journal w ++ new
     /\ forallb quiet new = true
     /\ let importErr := failures w ImportManagedClusterFromSecret in
        let statusErr := failures w UpdateManagedClusterStatus in
        let cond := match importErr with
                    | Some e => importFailed n e
                    | None => importSucceeded
                    end in
        Reconcile req w =
          Done (Result_zero, NewAggregate (option_list importErr ++ option_list statusErr)) w2
        /\ journal w2 = journal w1 ++ [ActImport {| clientSecret := hiveSecret |} importSecret;
                                        ActUpdateStatus n cond]
        /\ (statusErr = None ->
            exists server, managedClusters w1 !! n = Some server
              /\ managedClusters w2 !! n =
                  Some {| clusterMeta := clusterMeta server;
                          Conditions := SetStatusCondition (Conditions server) cond |}))
  \/ (exists cd w1,
        Reconcile req w = Panic w1
        /\ clusterDeployments w !! (n, n) = Some cd
        /\ Time_IsZero (DeletionTimestamp (deploymentMeta cd)) = true
        /\ Installed cd = true
        /\ unclaimed cd = false
        /\ is_Some (managedClusters w !! n)
        /\ SpecClusterMetadata cd = None
        /\ forallb quiet (performed w (@Panic unit w1)) = true)
  \/ (exists r w1,
        Reconcile req w = Done r w1
        /\ forallb quiet (performed w (Done r w1)) = true).
Proof.
  intros n. remember (Reconcile req w) as out eqn:Hout.
  unfold Reconcile in Hout. fold n in Hout. unfold_run_in Hout.
  assert (forall x : Result * option ReturnedError,
            forallb quiet (performed w (Done x w)) = true) as Hsame0.
  { intros x. by rewrite performed_same. }
  destruct (failures w GetClusterDeployment) as [e|] eqn:F1.
  { right; right. destruct (IsNotFound e); subst out; eexists _, _;
      (split; [reflexivity|apply Hsame0]). }
  destruct (clusterDeployments w !! (n, n)) as [cd|] eqn:L1; simpl in Hout;
    [|subst out; right; right; eexists _, _; (split; [reflexivity|apply Hsame0])].
  destruct (negb (Time_IsZero _)) eqn:Hdel.
  { right; right.
    destruct (removeImportFinalizer_frame cd w) as (r & w1 & new & Hr & Hj & Hq).
    rewrite Hr in Hout. subst out.
    eexists _, _. split; [reflexivity|]. by rewrite (performed_app _ _ new). }
  apply negb_false_iff in Hdel.
  destruct (failures w GetManagedCluster) as [e|] eqn:F2.
  { right; right. destruct (IsNotFound e); subst out; eexists _, _;
      (split; [reflexivity|apply Hsame0]). }
  destruct (managedClusters w !! n) as [mc|] eqn:L2; simpl in Hout;
    [|subst out; right; right; eexists _, _; (split; [reflexivity|apply Hsame0])].
  destruct (Installed cd) eqn:Hinst; simpl in Hout;
    [|subst out; right; right; eexists _, _; (split; [reflexivity|apply Hsame0])].
  fold (unclaimed cd) in Hout.
  destruct (unclaimed cd) eqn:Hclaim;
    [subst out; right; right; eexists _, _; (split; [reflexivity|apply Hsame0])|].
  destruct (setCreatedViaAnnotation_frame cd mc w)
    as (r & w1 & new & Hrun & Hsame & Hj & Hq & Hmc).
  rewrite Hrun in Hout.
  destruct Hsame as (S1 & S2 & S3 & S4 & S5 & S6).
  assert (forall A (x : A), forallb quiet (performed w (Done x w1)) = true) as Hquiet.
  { intros A x. by rewrite (performed_app _ _ new). }
  destruct r as [e|];
    [subst out; right; right; eexists _, _; (split; [reflexivity|apply Hquiet])|].
  assert (forall x : Result * option ReturnedError,
            out = Done x w1 ->
            (exists r w1, out = Done r w1
               /\ forallb quiet (performed w (Done r w1)) = true)) as Hleaf.
  { intros x ->. eexists _, _. split; [reflexivity|apply Hquiet]. }
  repeat (cbn beta iota in Hout; rewrite ?S6, ?S3, ?S2, ?S4, ?S5 in Hout;
          autorewrite with world in Hout;
          match type of Hout with
          | context [match ?x with _ => _ end] =>
              lazymatch x with
              | context [match _ with _ => _ end] => fail
              | _ => destruct x eqn:?
              end
          end).
  all: try (right; right; eapply Hleaf; exact Hout).
  all: rewrite ?S6 in *.
  all: try (right; left; exists cd, w1; subst out;
            repeat split; try done; by rewrite (performed_app _ _ new)).
  all: try (exfalso;
            match goal with
            | Hn : managedClusters _ !! ?k = None |- _ =>
                destruct (Hmc k) as [? Hs]; [by eexists|]; congruence
            end).
  all: left; exists cd, mc; eexists _, _, _, w1, _, new.
  all: repeat match goal with |- _ /\ _ => split end; try done.
  all: try (intros; congruence).
  all: try (match goal with
            | Hc : negb (_ =? 2)%nat = false |- _ =>
                by apply negb_false_iff, Nat.eqb_eq in Hc
            end).
  all: cbv zeta;
    match goal with
    | Hs : failures _ UpdateManagedClusterStatus = _ |- _ => rewrite Hs
    end;
    (split; [exact Hout|]);
    (split; [autorewrite with world; by rewrite <- app_assoc|]).
  all: intros Hnone; try discriminate.
  all: eexists; (split; [eassumption|]); autorewrite with world;
    apply lookup_insert_eq.
Qed.

End ReconcileFacts.

(** ** Following one path through the gates *)
Section ReconcilePaths.
Context `{Imports}.
Import ClusterDeploymentController.




Lemma Reconcile_missing_metadata req w cd mc :
  let n := nnName (reqNamespacedName req) in
  noFailures w ->
  installedAndClaimed n w cd mc ->
  autoImportSecrets w !! (n, AutoImportSecretName) = None ->
  SpecClusterMetadata cd = None ->
  exists w1, Reconcile req w = Panic w1.
Proof.
  intros n Hnf (L1 & Hdel & L2 & Hname & Hinst & Hclaim) L3 Hmd.
  destruct (setCreatedViaAnnotation_succeeds cd mc w)
    as (w1 & new & Hrun & Hsame & Hj & Hq);
    [apply Hnf | rewrite Hname, L2; by eexists |].
  destruct Hsame as (S1 & S2 & S3 & S4 & S5 & S6).
  exists w1. unfold Reconcile. fold n. unfold_run.
  rewrite Hnf, L1. simpl. rewrite Hdel. simpl. rewrite Hnf, L2, Hinst. simpl.
  fold (unclaimed cd). rewrite Hclaim, Hrun.
  cbn beta iota. rewrite S6, Hnf, S3, L3. simpl. by rewrite Hmd.
Qed.


End ReconcilePaths.

(** ** The convergence helpers *)

(** C5. Finalizer cleanup on an install record: when the import finalizer
    is the only finalizer (and the patch goes through), the finalizers of
    the stored record become empty and one audit event is emitted, after
    the patch; with any other list of finalizers (the import finalizer
    absent, or present with others) the world is left as it is and no error
    is returned. So whenever cleanup patches or emits an event, the import
    finalizer was the only one. A reconciliation of a record that is being
    deleted runs this cleanup and nothing else. *)
Theorem removeImportFinalizer_cleanup `{Imports} (cd : ClusterDeployment) (w : World) :
  let finalizers := Finalizers (deploymentMeta cd) in
  let namespace := Namespace (deploymentMeta cd) in
  let name := Name (deploymentMeta cd) in
  (finalizers <> [ImportFinalizer] ->
   ClusterDeploymentController.removeImportFinalizer cd w = Done None w)
  /\ (finalizers = [ImportFinalizer] ->
      failures w PatchClusterDeployment = None ->
      is_Some (clusterDeployments w !! (namespace, name)) ->
      exists w',
        ClusterDeploymentController.removeImportFinalizer cd w = Done None w'
        /\ (Finalizers ∘ deploymentMeta) <$> clusterDeployments w' !! (namespace, name)
           = Some []
        /\ performed w (Done (@None error) w') =
           [ActPatchClusterDeployment namespace name [];
            ActEvent "ClusterDeploymentFinalizerRemoved"
              ("The clusterdeployment " +:+ name +:+ " finalizer "
               +:+ ImportFinalizer +:+ " is removed")])
  /\ (forall a,
        a ∈ performed w (ClusterDeploymentController.removeImportFinalizer cd w) ->
        finalizers = [ImportFinalizer])
  /\ (forall req,
        failures w GetClusterDeployment = None ->
        clusterDeployments w !! (nnName (reqNamespacedName req),
                                 nnName (reqNamespacedName req)) = Some cd ->
        Time_IsZero (DeletionTimestamp (deploymentMeta cd)) = false ->
        ClusterDeploymentController.Reconcile req w =
        match ClusterDeploymentController.removeImportFinalizer cd w with
        | Done err w' => Done (Result_zero, Plain <$> err) w'
        | Panic w' => Panic w'
        end).
Proof.
  intros finalizers namespace name.
  pose proof (removeImportFinalizer_run cd w) as Hrun. cbv zeta in Hrun.
  fold finalizers namespace name in Hrun.
  split; [|split; [|split]].
  - intros Hne. rewrite Hrun. by destruct (decide _).
  - intros E Hf [server Hs]. rewrite Hrun, Hf, Hs.
    destruct (decide _); [|done]. eexists. split; [reflexivity|]. split.
    + autorewrite with world. by rewrite lookup_insert_eq.
    + apply performed_app. simpl. by rewrite <- app_assoc.
  - intros a Ha. destruct (decide (finalizers = [ImportFinalizer])); [done|].
    rewrite Hrun in Ha.
    rewrite performed_same in Ha. by apply elem_of_nil in Ha.
  - intros req F L Hdel.
    unfold ClusterDeploymentController.Reconcile. unfold_run.
    rewrite F, L. simpl. by rewrite Hdel.
Qed.

(** The finalizer-safety scenario of C5: with another finalizer next to the
    legacy one cleanup does nothing; alone, the legacy finalizer is
    removed. *)
Lemma removeImportFinalizer_cleanup_witness :
  let both := Examples.deployment ["legacy-import"; "other-x"] (Some 1%N) true None in
  let only := Examples.deployment ["legacy-import"] (Some 1%N) true None in
  ClusterDeploymentController.removeImportFinalizer both
    (Examples.deleting ["legacy-import"; "other-x"])
  = Done None (Examples.deleting ["legacy-import"; "other-x"])
  /\ exists w',
       ClusterDeploymentController.removeImportFinalizer only
         (Examples.deleting ["legacy-import"]) = Done None w'
       /\ (Finalizers ∘ deploymentMeta) <$> clusterDeployments w' !! ("c1", "c1") = Some []
       /\ performed (Examples.deleting ["legacy-import"]) (Done (@None error) w') =
          [ActPatchClusterDeployment "c1" "c1" [];
           ActEvent "ClusterDeploymentFinalizerRemoved"
             "The clusterdeployment c1 finalizer legacy-import is removed"].
Proof.
  intros both only. split.
  - destruct (removeImportFinalizer_cleanup both
                (Examples.deleting ["legacy-import"; "other-x"])) as (Hnoop & _).
    apply Hnoop. discriminate.
  - destruct (removeImportFinalizer_cleanup only
                (Examples.deleting ["legacy-import"])) as (_ & Hremove & _).
    apply Hremove; [reflexivity | reflexivity | by eexists].
Defined.

(** C8. Annotation convergence: the wanted value is one of two constants,
    chosen by the bare-metal-agent platform of the install record. Nothing
    is patched and no event is emitted when the annotation reads as the
    discovery marker or already has the wanted value; otherwise (the patch
    going through) the stored cluster record gets the wanted value and one
    event follows the patch. After a run that returned no error, a second
    run on the cluster record as stored changes nothing. *)
Theorem setCreatedViaAnnotation_converges `{Imports}
    (cd : ClusterDeployment) (cluster : ManagedCluster) (w : World) :
  let annotations := Annotations (clusterMeta cluster) in
  let name := Name (clusterMeta cluster) in
  let desired := desiredCreatedVia cd in
  (desired = match AgentBareMetal (SpecPlatform cd) with
              | Some _ => CreatedViaAI
              | None => CreatedViaHive
              end)
  /\ (mapIndex annotations CreatedViaAnnotation = CreatedViaDiscovery ->
      ClusterDeploymentController.setCreatedViaAnnotation cd cluster w = Done None w)
  /\ (annotations !! CreatedViaAnnotation = Some desired ->
      ClusterDeploymentController.setCreatedViaAnnotation cd cluster w = Done None w)
  /\ (mapIndex annotations CreatedViaAnnotation <> CreatedViaDiscovery ->
      annotations !! CreatedViaAnnotation <> Some desired ->
      failures w PatchManagedCluster = None ->
      forall server, managedClusters w !! name = Some server ->
      exists w',
        ClusterDeploymentController.setCreatedViaAnnotation cd cluster w = Done None w'
        /\ (Annotations ∘ clusterMeta) <$> managedClusters w' !! name
           = Some (<[CreatedViaAnnotation := desired]> (Annotations (clusterMeta server)))
        /\ performed w (Done (@None error) w') =
           [ActPatchManagedCluster name {[ CreatedViaAnnotation := Some desired ]};
            ActEvent "ManagedClusterLabelsUpdated"
              ("The managed cluster " +:+ name +:+ " labels is added")])
  /\ (forall w',
        ClusterDeploymentController.setCreatedViaAnnotation cd cluster w = Done None w' ->
        managedClusters w !! name = Some cluster ->
        exists cluster',
          managedClusters w' !! name = Some cluster'
          /\ ClusterDeploymentController.setCreatedViaAnnotation cd cluster' w'
             = Done None w').
Proof.
  intros annotations name desired.
  pose proof (setCreatedViaAnnotation_run cd cluster w) as Hrun. cbv zeta in Hrun.
  fold annotations name desired in Hrun.
  split; [|split; [|split; [|split]]].
  - unfold desired, desiredCreatedVia. by destruct (AgentBareMetal _).
  - intros E. rewrite Hrun, E. by rewrite String.eqb_refl.
  - intros E. rewrite Hrun. destruct (String.eqb _ _); [done|].
    by destruct (decide _).
  - intros Hd Hne Hf server Hs. rewrite Hrun, Hf, Hs.
    destruct (String.eqb _ _) eqn:Eb; [by apply String.eqb_eq in Eb|].
    destruct (decide _); [done|]. eexists. split; [reflexivity|]. split.
    + autorewrite with world. by rewrite lookup_insert_eq.
    + apply performed_app. simpl. by rewrite <- app_assoc.
  - intros w' Hfirst Hs. rewrite Hrun in Hfirst.
    destruct (String.eqb _ CreatedViaDiscovery) eqn:Eb.
    { simplify_eq. by exists cluster. }
    destruct (decide (annotations !! CreatedViaAnnotation = Some desired)) as [E | E].
    { simplify_eq. by exists cluster. }
    destruct (failures w PatchManagedCluster); [done|].
    rewrite Hs in Hfirst. simplify_eq.
    eexists. split.
    { autorewrite with world. apply lookup_insert_eq. }
    rewrite setCreatedViaAnnotation_run. cbv zeta.
    match goal with
    | |- (if ?b then _ else _) = _ => destruct b; [reflexivity|]
    end.
    match goal with
    | |- (if ?d then _ else _) = _ => destruct d as [|Hne]; [reflexivity|]
    end.
    exfalso. apply Hne. simpl. apply lookup_insert_eq.
Qed.

(** The idempotence scenario of C8: on a cluster record without the
    annotation the first run patches it to the host-install value and emits
    one event; a second run on the stored record changes nothing. *)
Lemma setCreatedViaAnnotation_converges_witness :
  let cd := Examples.deployment [] None true (Some Examples.adminMetadata) in
  exists w',
    ClusterDeploymentController.setCreatedViaAnnotation cd (Examples.cluster ∅)
      Examples.ready = Done None w'
    /\ (Annotations ∘ clusterMeta) <$> managedClusters w' !! "c1"
       = Some {[ "open-cluster-management/created-via" := "hive" ]}
    /\ exists cluster',
         managedClusters w' !! "c1" = Some cluster'
         /\ ClusterDeploymentController.setCreatedViaAnnotation cd cluster' w'
            = Done None w'.
Proof.
  intros cd.
  destruct (setCreatedViaAnnotation_converges cd (Examples.cluster ∅) Examples.ready)
    as (_ & _ & _ & Hpatch & Hagain).
  destruct (Hpatch ltac:(discriminate) ltac:(discriminate) eq_refl
              (Examples.cluster ∅) eq_refl) as (w' & Hrun & Hstored & _).
  exists w'. split; [exact Hrun|]. split.
  - exact Hstored.
  - apply Hagain; [exact Hrun | reflexivity].
Defined.

(** ** Reconciliation *)

Lemma quiet_elem (l : list Action) a :
  forallb quiet l = true -> a ∈ l -> isImport a = false /\ isStatusWrite a = false.
Proof.
  intros Hq Ha. apply list_elem_of_In in Ha.
  rewrite forallb_forall in Hq. specialize (Hq a Ha).
  unfold quiet in Hq. apply andb_true_iff in Hq as [? ?].
  split; by apply negb_true_iff.
Qed.

Lemma quiet_filter (l : list Action) :
  forallb quiet l = true ->
  List.filter isImport l = [] /\ List.filter isStatusWrite l = [].
Proof.
  induction l as [|a l IH]; [done|]. simpl.
  intros [Ha Hl]%andb_true_iff. destruct (IH Hl) as [-> ->].
  unfold quiet in Ha. apply andb_true_iff in Ha as [Hi Hs].
  apply negb_true_iff in Hi, Hs. by rewrite Hi, Hs.
Qed.

(** C4. Whenever a reconciliation applies the manifests it does so once and
    then writes exactly one status condition, of type
    [ManagedClusterImportSucceeded]: True with reason
    [ManagedClusterImported] when the application succeeded; False with
    reason [ManagedClusterNotImported] and a message ending with the text
    of the error when it failed. It returns the aggregate of the
    application error and of the status-write error, both of them when both
    occurred; when the write succeeded the cluster record carries the
    condition. *)
Theorem Reconcile_import_condition `{Imports}
    (req : Request) (w : World) (client : RemoteClient) (secret : Secret) :
  ActImport client secret ∈ performed w (ClusterDeploymentController.Reconcile req w) ->
  let n := nnName (reqNamespacedName req) in
  let importErr := failures w ImportManagedClusterFromSecret in
  let statusErr := failures w UpdateManagedClusterStatus in
  let cond := match importErr with
              | Some e => ClusterDeploymentController.importFailed n e
              | None => ClusterDeploymentController.importSucceeded
              end in
  (exists w',
     ClusterDeploymentController.Reconcile req w =
       Done (Result_zero, NewAggregate (option_list importErr ++ option_list statusErr)) w'
     /\ (statusErr = None ->
         exists mc, managedClusters w' !! n = Some mc /\ cond ∈ Conditions mc))
  /\ List.filter isStatusWrite
       (performed w (ClusterDeploymentController.Reconcile req w))
     = [ActUpdateStatus n cond]
  /\ List.filter isImport
       (performed w (ClusterDeploymentController.Reconcile req w))
     = [ActImport client secret]
  /\ condType cond = "ManagedClusterImportSucceeded"
  /\ (importErr = None ->
      condStatus cond = "True" /\ condReason cond = "ManagedClusterImported")
  /\ (forall e, importErr = Some e ->
      condStatus cond = "False"
      /\ condReason cond = "ManagedClusterNotImported"
      /\ condMessage cond = "Unable to import " +:+ n +:+ ": " +:+ Error_ e)
  /\ (forall e1 e2, importErr = Some e1 -> statusErr = Some e2 ->
      returned (ClusterDeploymentController.Reconcile req w)
      = Some (Result_zero, Some (Aggregate [e1; e2]))).
Proof.
  intros Himp n importErr statusErr cond.
  destruct (Reconcile_outcome req w)
    as [(cd & mc & md & hiveSecret & importSecret & w1 & w2 & new & Hfacts)
       | [(cd & w1 & E & _ & _ & _ & _ & _ & _ & Hq) | (r & w1 & E & Hq)]].
  2, 3: rewrite E in Himp; by destruct (quiet_elem _ _ Hq Himp).
  destruct Hfacts as (_ & _ & _ & _ & _ & _ & _ & _ & _ & _ & Hj & Hq & Hrun).
  cbv zeta in Hrun. fold n importErr statusErr cond in Hrun.
  destruct Hrun as (E & Hj2 & Hstatus).
  assert (performed w (ClusterDeploymentController.Reconcile req w)
          = new ++ [ActImport {| clientSecret := hiveSecret |} importSecret;
                    ActUpdateStatus n cond]) as Hp.
  { rewrite E. apply performed_app. simpl. by rewrite Hj2, Hj, <- app_assoc. }
  rewrite Hp in Himp |- *.
  destruct (quiet_filter _ Hq) as [Hfi Hfs].
  assert (ActImport client secret = ActImport {| clientSecret := hiveSecret |} importSecret)
    as Hsame.
  { apply elem_of_app in Himp as [Hin | Hin].
    - by destruct (quiet_elem _ _ Hq Hin).
    - apply elem_of_cons in Hin as [Hin | Hin]; [done|].
      apply list_elem_of_singleton in Hin. discriminate. }
  split; [|split; [|split; [|split; [|split; [|split]]]]].
  - exists w2. split; [exact E|]. intros Hnone.
    destruct (Hstatus Hnone) as (server & _ & Hs).
    eexists. split; [exact Hs|]. apply SetStatusCondition_elem.
  - by rewrite List.filter_app, Hfs.
  - by rewrite List.filter_app, Hfi, Hsame.
  - unfold cond. by destruct importErr.
  - intros Hnone. unfold cond. by rewrite Hnone.
  - intros e He. unfold cond. by rewrite He.
  - intros e1 e2 He1 He2. rewrite E. simpl. by rewrite He1, He2.
Qed.

(** The end-to-end scenario of C4: with everything in place the condition
    written is True / [ManagedClusterImported]; when the application fails
    with "connection refused" and the status write fails too, the condition
    attempted is False / [ManagedClusterNotImported] with the error text in
    its message, and both errors are returned. *)
Lemma Reconcile_import_condition_witness :
  let client := {| clientSecret := Examples.adminSecret |} in
  let run w := ClusterDeploymentController.Reconcile Examples.c1 w in
  (returned (run Examples.ready) = Some (Result_zero, None)
   /\ List.filter isStatusWrite (performed Examples.ready (run Examples.ready))
      = [ActUpdateStatus "c1"
           {| condType := "ManagedClusterImportSucceeded";
              condStatus := "True";
              condMessage := "Import succeeded";
              condReason := "ManagedClusterImported" |}])
  /\ (returned (run Examples.applyAndStatusFail)
      = Some (Result_zero,
              Some (Aggregate [Examples.connectionRefused; Examples.conflict]))
      /\ List.filter isStatusWrite
           (performed Examples.applyAndStatusFail (run Examples.applyAndStatusFail))
         = [ActUpdateStatus "c1"
              {| condType := "ManagedClusterImportSucceeded";
                 condStatus := "False";
                 condMessage := "Unable to import c1: connection refused";
                 condReason := "ManagedClusterNotImported" |}]).
Proof.
  intros client run. split.
  - assert (ActImport client Examples.importSecret
              ∈ performed Examples.ready (run Examples.ready)) as Hin.
    { apply list_elem_of_lookup. exists 2. vm_compute. reflexivity. }
    destruct (Reconcile_import_condition Examples.c1 Examples.ready _ _ Hin)
      as ((w' & E & _) & Hstatus & _).
    split; [|exact Hstatus].
    unfold run. rewrite E. reflexivity.
  - assert (ActImport client Examples.importSecret
              ∈ performed Examples.applyAndStatusFail
                  (run Examples.applyAndStatusFail)) as Hin.
    { apply list_elem_of_lookup. exists 2. vm_compute. reflexivity. }
    destruct (Reconcile_import_condition Examples.c1 Examples.applyAndStatusFail _ _ Hin)
      as (_ & Hstatus & _ & _ & _ & _ & Hboth).
    split; [|exact Hstatus].
    apply Hboth; reflexivity.
Defined.



(** C10. A reconciliation panics exactly on an install record that passes
    gates 1 to 6 and has no cluster metadata: with nothing failing, such a
    record makes it panic; whenever it panics the record is installed, not
    being deleted, claimed, the cluster record exists and the metadata are
    nil; and when the stored install record has cluster metadata the
    reconciliation returns. *)
Theorem Reconcile_panics_without_metadata `{Imports} (req : Request) (w : World) :
  let n := nnName (reqNamespacedName req) in
  (forall cd mc,
     noFailures w ->
     installedAndClaimed n w cd mc ->
     autoImportSecrets w !! (n, AutoImportSecretName) = None ->
     SpecClusterMetadata cd = None ->
     returned (ClusterDeploymentController.Reconcile req w) = None)
  /\ (returned (ClusterDeploymentController.Reconcile req w) = None ->
      exists cd,
        clusterDeployments w !! (n, n) = Some cd
        /\ Time_IsZero (DeletionTimestamp (deploymentMeta cd)) = true
        /\ Installed cd = true
        /\ unclaimed cd = false
        /\ is_Some (managedClusters w !! n)
        /\ SpecClusterMetadata cd = None)
  /\ ((forall cd, clusterDeployments w !! (n, n) = Some cd ->
                  is_Some (SpecClusterMetadata cd)) ->
      is_Some (returned (ClusterDeploymentController.Reconcile req w))).
Proof.
  intros n. split; [|split].
  - intros cd mc Hnf Hgates Hauto Hmd.
    destruct (Reconcile_missing_metadata req w cd mc Hnf Hgates Hauto Hmd) as (w1 & E).
    by rewrite E.
  - intros Hpanic.
    destruct (Reconcile_outcome req w)
      as [(cd & mc & md & hiveSecret & importSecret & w1 & w2 & new & Hfacts)
         | [(cd & w1 & E & Hfacts) | (r & w1 & E & Hq)]].
    + destruct Hfacts as (_ & _ & _ & _ & _ & _ & _ & _ & _ & _ & _ & _ & Hrun).
      cbv zeta in Hrun. destruct Hrun as (E & _). by rewrite E in Hpanic.
    + exists cd. by destruct Hfacts as (? & ? & ? & ? & ? & ? & _).
    + by rewrite E in Hpanic.
  - intros Hmd.
    destruct (Reconcile_outcome req w)
      as [(cd & mc & md & hiveSecret & importSecret & w1 & w2 & new & Hfacts)
         | [(cd & w1 & E & Hfacts) | (r & w1 & E & Hq)]].
    + destruct Hfacts as (_ & _ & _ & _ & _ & _ & _ & _ & _ & _ & _ & _ & Hrun).
      cbv zeta in Hrun. destruct Hrun as (E & _). rewrite E. by eexists.
    + destruct Hfacts as (L1 & _ & _ & _ & _ & Hnone & _).
      destruct (Hmd cd L1) as [md Hsome]. congruence.
    + rewrite E. by eexists.
Qed.

(** The failing input of C10: cluster [c1] installed, not from a pool, no
    auto-import secret, and no cluster metadata on its install record. *)
Lemma Reconcile_panics_without_metadata_witness :
  returned (ClusterDeploymentController.Reconcile Examples.c1 Examples.noMetadata) = None
  /\ is_Some (returned (ClusterDeploymentController.Reconcile Examples.c1 Examples.ready)).
Proof.
  split.
  - destruct (Reconcile_panics_without_metadata Examples.c1 Examples.noMetadata)
      as (Hpanic & _).
    apply (Hpanic (Examples.deployment [] None true None) (Examples.cluster ∅)).
    + intros c. reflexivity.
    + repeat split; reflexivity.
    + reflexivity.
    + reflexivity.
  - destruct (Reconcile_panics_without_metadata Examples.c1 Examples.ready)
      as (_ & _ & Htotal).
    apply Htotal. intros cd Hcd. vm_compute in Hcd. simplify_eq. by eexists.
Defined.




(** * Further properties of the event router *)

(** X1. The update predicate of the work watch accepts an event exactly
    when the name of the new object ends with both suffixes, both objects
    are manifest works, and their manifests are not equal. *)
Theorem HostedWork_UpdateFunc_true_iff `{Imports} (e : UpdateEvent) :
  Hosted.HostedWork_UpdateFunc e = true <->
  HasSuffix (GetName (ObjectNew e)) HostedKlusterletManifestworkSuffix = true
  /\ HasSuffix (GetName (ObjectNew e)) HostedManagedKubeconfigManifestworkSuffix = true
  /\ exists new old,
       ObjectNew e = ObjManifestWork new
       /\ ObjectOld e = ObjManifestWork old
       /\ ManifestsEqual (Manifests new) (Manifests old) = false.
Proof.
  unfold Hosted.HostedWork_UpdateFunc.
  destruct (HasSuffix (GetName (ObjectNew e)) HostedKlusterletManifestworkSuffix);
    [|split; [done | by intros (? & _)]].
  destruct (HasSuffix (GetName (ObjectNew e)) HostedManagedKubeconfigManifestworkSuffix);
    [|split; [done | by intros (_ & ? & _)]].
  simpl. split.
  - intros Hne. do 2 (split; [done|]).
    destruct (ObjectNew e) as [new| | |], (ObjectOld e) as [old| | |]; try done.
    exists new, old. by apply negb_true_iff in Hne.
  - intros (_ & _ & new & old & -> & -> & Hne). simpl. by rewrite Hne.
Qed.

(** X2. When neither suffix ends with the other, no update of any object is
    routed by the work watch. *)
Theorem HostedWork_updates_never_routed `{Imports} (e : UpdateEvent) :
  HasSuffix HostedKlusterletManifestworkSuffix
            HostedManagedKubeconfigManifestworkSuffix = false ->
  HasSuffix HostedManagedKubeconfigManifestworkSuffix
            HostedKlusterletManifestworkSuffix = false ->
  route Hosted.HostedWorkWatch (EvUpdate e) = None.
Proof.
  intros H1 H2. rewrite route_HostedWork_update.
  by rewrite HostedWork_UpdateFunc_never.
Qed.

Lemma HostedWork_updates_never_routed_witness :
  route Hosted.HostedWorkWatch
    (EvUpdate {| ObjectOld := ObjManifestWork
                                (Examples.work "hosting" "c1-klusterlet-kubeconfig" ["v1"]);
                 ObjectNew := ObjManifestWork
                                (Examples.work "hosting" "c1-klusterlet-kubeconfig" ["v2"]) |})
  = None.
Proof. apply HostedWork_updates_never_routed; reflexivity. Defined.

(** X3. When neither suffix ends with the other, the creation and the
    deletion of either bootstrap work of a cluster [p] (named [p-klusterlet
    suffix] or [p-kubeconfig suffix]) are routed to the key [p], whatever
    the namespace of the work. *)
Theorem HostedWork_bootstrap_works_same_key `{Imports} (p : string) (o : Object) :
  HasSuffix HostedKlusterletManifestworkSuffix
            HostedManagedKubeconfigManifestworkSuffix = false ->
  HasSuffix HostedManagedKubeconfigManifestworkSuffix
            HostedKlusterletManifestworkSuffix = false ->
  GetName o = p +:+ "-" +:+ HostedKlusterletManifestworkSuffix
  \/ GetName o = p +:+ "-" +:+ HostedManagedKubeconfigManifestworkSuffix ->
  route Hosted.HostedWorkWatch (EvCreate {| createObject := o |}) = Some (requestFor p p)
  /\ route Hosted.HostedWorkWatch (EvDelete {| deleteObject := o |}) = Some (requestFor p p).
Proof.
  intros H1 H2 Hname.
  assert (Hosted.HostedWork_MapFunc o = requestFor p p) as E.
  { rewrite HostedWork_MapFunc_cases. cbv zeta.
    destruct Hname as [E | E]; rewrite E.
    - destruct (HasSuffix (p +:+ "-" +:+ HostedKlusterletManifestworkSuffix)
                          HostedManagedKubeconfigManifestworkSuffix) eqn:Hk.
      + pose proof (HasSuffix_separated p HostedKlusterletManifestworkSuffix) as Hs.
        destruct (HasSuffix_both _ _ _ Hs Hk); congruence.
      + by rewrite HasSuffix_separated, TrimSuffix_app.
    - by rewrite HasSuffix_separated, TrimSuffix_app. }
  unfold route. simpl. by rewrite E.
Qed.

Lemma HostedWork_bootstrap_works_same_key_witness :
  route Hosted.HostedWorkWatch
    (EvCreate {| createObject :=
                   ObjManifestWork (Examples.work "hosting-a" "c1-klusterlet" []) |})
  = Some (requestFor "c1" "c1")
  /\ route Hosted.HostedWorkWatch
       (EvDelete {| deleteObject :=
                      ObjManifestWork (Examples.work "hosting-b" "c1-kubeconfig" []) |})
     = Some (requestFor "c1" "c1").
Proof.
  split.
  - apply (HostedWork_bootstrap_works_same_key "c1"
             (ObjManifestWork (Examples.work "hosting-a" "c1-klusterlet" [])));
      [reflexivity | reflexivity | left; reflexivity].
  - apply (HostedWork_bootstrap_works_same_key "c1"
             (ObjManifestWork (Examples.work "hosting-b" "c1-kubeconfig" [])));
      [reflexivity | reflexivity | right; reflexivity].
Defined.



(** X6. An update whose old or new object is not of the watched kind (a
    failed type assertion) is never routed: by the two secret watches when
    one of the objects is not a secret, by the work watch when one of them
    is not a manifest work. *)
Theorem update_of_other_kind_not_routed `{Imports} (e : UpdateEvent) :
  (asSecret (ObjectNew e) = None \/ asSecret (ObjectOld e) = None ->
   route Hosted.ImportSecretWatch (EvUpdate e) = None
   /\ route Hosted.AutoImportSecretWatch (EvUpdate e) = None)
  /\ (asManifestWork (ObjectNew e) = None \/ asManifestWork (ObjectOld e) = None ->
      route Hosted.HostedWorkWatch (EvUpdate e) = None).
Proof.
  split.
  - intros Hkind.
    assert (Hosted.Secret_UpdateFunc e = false) as E.
    { unfold Hosted.Secret_UpdateFunc.
      destruct Hkind as [-> | Hold]; [done|]. rewrite Hold.
      by destruct (asSecret (ObjectNew e)). }
    unfold route. simpl. by rewrite E.
  - intros Hkind. rewrite route_HostedWork_update.
    assert (Hosted.HostedWork_UpdateFunc e = false) as ->; [|done].
    unfold Hosted.HostedWork_UpdateFunc.
    destruct (negb _ || negb _); [done|].
    destruct Hkind as [-> | Hold]; [done|]. rewrite Hold.
    by destruct (asManifestWork (ObjectNew e)).
Qed.

Lemma update_of_other_kind_not_routed_witness :
  let e := {| ObjectOld := ObjOther (Examples.meta "c1" "c1-import");
              ObjectNew := ObjSecret Examples.importSecret |} in
  route Hosted.ImportSecretWatch (EvUpdate e) = None
  /\ route Hosted.AutoImportSecretWatch (EvUpdate e) = None.
Proof.
  intros e. apply (update_of_other_kind_not_routed e). right. reflexivity.
Defined.

(** * Further properties of the cluster-deployment reconciler *)

Import ClusterDeploymentController.

(** Case analysis of a run kept as the equation [Hout]: every test of the
    run is decided in turn, the two convergence helpers by their equations. *)
Ltac explore Hout :=
  repeat (cbn beta iota zeta in Hout;
          rewrite ?setCreatedViaAnnotation_run, ?removeImportFinalizer_run in Hout;
          cbn [clusterDeployments managedClusters kubeSecrets autoImportSecrets
               importSecrets klusterletWorks failures journal record
               setManagedClusters setClusterDeployments IsNotFound NewNotFound] in Hout;
          match type of Hout with
          | context [match ?x with _ => _ end] =>
              lazymatch x with
              | context [match _ with _ => _ end] => fail
              | _ => destruct x eqn:?
              end
          end);
  cbn beta iota zeta in Hout;
  cbn [clusterDeployments managedClusters kubeSecrets autoImportSecrets
       importSecrets klusterletWorks failures journal record
       setManagedClusters setClusterDeployments IsNotFound NewNotFound] in Hout.

Ltac bool_facts :=
  repeat match goal with
         | Hn : negb _ = true |- _ => apply negb_true_iff in Hn
         | Hn : negb _ = false |- _ => apply negb_false_iff in Hn
         | Hn : String.eqb _ _ = false |- _ => apply String.eqb_neq in Hn
         | Hn : String.eqb _ _ = true |- _ => apply String.eqb_eq in Hn
         end.

Ltac journal_of Ha :=
  unfold performed in Ha;
  cbn [outcomeWorld journal record setManagedClusters setClusterDeployments] in Ha;
  rewrite <- ?app_assoc in Ha;
  first [rewrite drop_app_length in Ha | rewrite drop_all in Ha].

(** X7. A reconciliation never asks for a requeue: whatever it returns,
    the result is the zero [reconcile.Result] (no [Requeue], no
    [RequeueAfter]); a retry can only come from the returned error. *)
Theorem Reconcile_never_requeues `{Imports} (req : Request) (w : World) r :
  returned (Reconcile req w) = Some r -> r.1 = Result_zero.
Proof.
  remember (Reconcile req w) as out eqn:Hout.
  unfold Reconcile in Hout. unfold_run_in Hout.
  explore Hout.
  all: intros E; rewrite Hout in E; try discriminate.
  all: injection E as <-; reflexivity.
Qed.

(** Both the application and the status write fail: the errors are returned, with the zero result. *)
Lemma Reconcile_never_requeues_witness :
  let r := (Result_zero,
            Some (Aggregate [Examples.connectionRefused; Examples.conflict])) in
  returned (Reconcile Examples.c1 Examples.applyAndStatusFail) = Some r
  /\ r.1 = Result_zero.
Proof.
  intros r.
  assert (returned (Reconcile Examples.c1 Examples.applyAndStatusFail) = Some r) as Hr.
  { vm_compute. reflexivity. }
  split; [exact Hr|].
  exact (Reconcile_never_requeues Examples.c1 Examples.applyAndStatusFail r Hr).
Defined.

(** The stores a reconciliation leaves as they are. *)
Lemma Reconcile_frame `{Imports} (req : Request) (w : World) :
  let n := nnName (reqNamespacedName req) in
  let w' := outcomeWorld (Reconcile req w) in
  (kubeSecrets w' = kubeSecrets w
   /\ autoImportSecrets w' = autoImportSecrets w
   /\ importSecrets w' = importSecrets w
   /\ klusterletWorks w' = klusterletWorks w
   /\ failures w' = failures w)
  /\ (forall cd, clusterDeployments w !! (n, n) = Some cd ->
        if Time_IsZero (DeletionTimestamp (deploymentMeta cd))
        then clusterDeployments w' = clusterDeployments w
        else managedClusters w' = managedClusters w)
  /\ (clusterDeployments w !! (n, n) = None ->
      clusterDeployments w' = clusterDeployments w
      /\ managedClusters w' = managedClusters w).
Proof.
  intros n w'. subst w'.
  remember (Reconcile req w) as out eqn:Hout.
  unfold Reconcile in Hout. fold n in Hout. unfold_run_in Hout.
  explore Hout.
  all: subst out; split; [by repeat split|].
  all: split; [|try done].
  all: try (intros cd' E; simplify_eq;
            match goal with
            | Hd : negb ?b = _ |- context [if ?b then _ else _] =>
                destruct b; try done
            end).
  all: try done.
  all: intros cd' _; by destruct (Time_IsZero _).
Qed.

(** X8. A reconciliation reads the secrets and the work objects and never
    writes them: the admin secrets, the auto-import secrets, the import
    secrets and the work objects are the same after any run, panic
    included. The install records are left as they are unless the record of
    the cluster is being deleted, and in that case (and when there is no
    record) the cluster records are left as they are. *)
Theorem Reconcile_stores `{Imports} (req : Request) (w : World) :
  let n := nnName (reqNamespacedName req) in
  let w' := outcomeWorld (Reconcile req w) in
  (kubeSecrets w' = kubeSecrets w
   /\ autoImportSecrets w' = autoImportSecrets w
   /\ importSecrets w' = importSecrets w
   /\ klusterletWorks w' = klusterletWorks w
   /\ failures w' = failures w)
  /\ (forall cd, clusterDeployments w !! (n, n) = Some cd ->
        if Time_IsZero (DeletionTimestamp (deploymentMeta cd))
        then clusterDeployments w' = clusterDeployments w
        else managedClusters w' = managedClusters w)
  /\ (clusterDeployments w !! (n, n) = None ->
      clusterDeployments w' = clusterDeployments w
      /\ managedClusters w' = managedClusters w).
Proof. exact (Reconcile_frame req w). Qed.

(** The ready cluster: its install record is untouched by the import; the deleted install record: the cluster records are untouched by the cleanup. *)
Lemma Reconcile_stores_witness :
  clusterDeployments (outcomeWorld (Reconcile Examples.c1 Examples.ready))
  = clusterDeployments Examples.ready
  /\ managedClusters
       (outcomeWorld (Reconcile Examples.c1 (Examples.deleting ["legacy-import"])))
     = managedClusters (Examples.deleting ["legacy-import"]).
Proof.
  split.
  - destruct (Reconcile_stores Examples.c1 Examples.ready) as (_ & Hcd & _).
    exact (Hcd (Examples.deployment [] None true (Some Examples.adminMetadata)) eq_refl).
  - destruct (Reconcile_stores Examples.c1 (Examples.deleting ["legacy-import"]))
      as (_ & Hcd & _).
    exact (Hcd (Examples.deployment ["legacy-import"] (Some 1%N) true
                  (Some Examples.adminMetadata)) eq_refl).
Defined.

(** X9. Where the errors of a reconciliation come from. A plain error is
    the error of a failed call (never a not-found answer for the install
    record, the cluster record, the auto-import secret or the import
    secret: those are not errors), or the not-found error for the admin
    credential secret named by the cluster metadata, or the not-found error
    of a patch whose object is gone. An aggregate holds only the error of
    the application of the manifests and the error of the status write. *)
Theorem Reconcile_error_origin `{Imports} (req : Request) (w : World) res err :
  let n := nnName (reqNamespacedName req) in
  returned (Reconcile req w) = Some (res, Some err) ->
  match err with
  | Plain e =>
      (exists c, failures w c = Some e
                 /\ (c = GetClusterDeployment \/ c = GetManagedCluster
                     \/ c = GetAutoImportSecret \/ c = GetImportSecret ->
                     IsNotFound e = false))
      \/ (exists cd md,
            clusterDeployments w !! (n, n) = Some cd
            /\ SpecClusterMetadata cd = Some md
            /\ kubeSecrets w !! (n, AdminKubeconfigSecretRef_Name md) = None
            /\ e = NewNotFound "secrets" (AdminKubeconfigSecretRef_Name md))
      \/ (exists name,
            e = NewNotFound "managedclusters.cluster.open-cluster-management.io" name
            \/ e = NewNotFound "clusterdeployments.hive.openshift.io" name)
  | Aggregate errs =>
      forall e, e ∈ errs ->
        failures w ImportManagedClusterFromSecret = Some e
        \/ failures w UpdateManagedClusterStatus = Some e
        \/ e = NewNotFound "managedclusters.cluster.open-cluster-management.io" n
  end.
Proof.
  intros n.
  remember (Reconcile req w) as out eqn:Hout.
  unfold Reconcile in Hout. fold n in Hout. unfold_run_in Hout.
  explore Hout.
  all: intros E; rewrite Hout in E; try discriminate.
  all: simpl in E; simplify_eq.
  all: repeat match goal with
              | Hn : negb _ = true |- _ => apply negb_true_iff in Hn
              | Hn : negb _ = false |- _ => apply negb_false_iff in Hn
              end.
  all: try (left; eexists; split; [eassumption|];
            intros [? | [? | [? | ?]]]; congruence).
  all: try (right; left; eexists _, _; by repeat split).
  all: try (right; right; eexists; by (left + right)).
  all: try (intros ? Hin; repeat (apply elem_of_cons in Hin as [-> | Hin]);
            try (by apply elem_of_nil in Hin); by auto).
Qed.

(** The two errors of the aggregate returned when the application and the status write fail are the errors of those two calls. *)
Lemma Reconcile_error_origin_witness :
  let w := Examples.applyAndStatusFail in
  let origin e :=
    failures w ImportManagedClusterFromSecret = Some e
    \/ failures w UpdateManagedClusterStatus = Some e
    \/ e = NewNotFound "managedclusters.cluster.open-cluster-management.io" "c1" in
  returned (Reconcile Examples.c1 w)
  = Some (Result_zero, Some (Aggregate [Examples.connectionRefused; Examples.conflict]))
  /\ origin Examples.connectionRefused
  /\ origin Examples.conflict.
Proof.
  intros w origin.
  assert (returned (Reconcile Examples.c1 w)
          = Some (Result_zero,
                  Some (Aggregate [Examples.connectionRefused; Examples.conflict])))
    as Hr.
  { vm_compute. reflexivity. }
  pose proof (Reconcile_error_origin Examples.c1 w _ _ Hr) as Horigin.
  split; [exact Hr|].
  split; apply Horigin.
  - apply elem_of_cons. by left.
  - apply elem_of_cons. right. apply elem_of_cons. by left.
Defined.

(** X10. When every gate holds and no read or patch fails, a
    reconciliation does apply the manifests: after the (quiet) actions of
    annotation convergence it applies the import secret through the client
    built from the admin credential secret and then writes the import
    condition, whether or not the application or the write fail. *)
Theorem Reconcile_imports_when_ready `{Imports} (req : Request) (w : World)
    (cd : ClusterDeployment) (mc : ManagedCluster) (hiveSecret importSecret : Secret) :
  let n := nnName (reqNamespacedName req) in
  let cond := match failures w ImportManagedClusterFromSecret with
              | Some e => importFailed n e
              | None => importSucceeded
              end in
  (forall c, c <> ImportManagedClusterFromSecret -> c <> UpdateManagedClusterStatus ->
             failures w c = None) ->
  installedAndClaimed n w cd mc ->
  autoImportSecrets w !! (n, AutoImportSecretName) = None ->
  credentialResolves n w cd hiveSecret ->
  importSecrets w !! (n, importSecretName n) = Some importSecret ->
  length (labeledWorks n w) = 2 ->
  exists before,
    performed w (Reconcile req w)
    = before ++ [ActImport {| clientSecret := hiveSecret |} importSecret;
                 ActUpdateStatus n cond]
    /\ forallb quiet before = true
    /\ is_Some (returned (Reconcile req w)).
Proof.
  intros n cond Hreads (L1 & Hdel & L2 & Hname & Hinst & Hclaim) L3 (md & Hmd & L4) L5 Hc.
  assert (forall c, c <> ImportManagedClusterFromSecret ->
                    c <> UpdateManagedClusterStatus ->
                    failures w c = None) as Hnf by exact Hreads.
  destruct (setCreatedViaAnnotation_frame cd mc w)
    as (r & w1 & new & Hrun & Hsame & Hj & Hq & Hmc).
  destruct (setCreatedViaAnnotation_succeeds cd mc w)
    as (w1' & new' & Hrun' & _);
    [by apply Hnf | rewrite Hname, L2; by eexists |].
  rewrite Hrun in Hrun'. injection Hrun' as -> <-.
  destruct Hsame as (S1 & S2 & S3 & S4 & S5 & S6).
  destruct (Hmc n) as [server Hserver]; [by eexists|].
  exists new.
  assert (exists r w2,
            Reconcile req w = Done r w2
            /\ journal w2 = journal w1 ++ [ActImport {| clientSecret := hiveSecret |} importSecret;
                                            ActUpdateStatus n cond]) as (r & w2 & E & Hj2).
  { unfold Reconcile. fold n. unfold_run.
    rewrite Hnf, L1 by done. simpl. rewrite Hdel. simpl.
    rewrite Hnf, L2, Hinst by done. simpl.
    fold (unclaimed cd). rewrite Hclaim, Hrun.
    cbn beta iota. rewrite S6, Hnf, S3, L3 by done. simpl. rewrite Hmd.
    cbn beta iota. rewrite S6, Hnf, S2, L4 by done.
    cbn beta iota. rewrite S6, Hnf by done.
    cbn beta iota. rewrite S6, Hnf, S4 by done.
    fold (importSecretName n). rewrite L5.
    cbn beta iota. rewrite S6, Hnf by done. cbn beta iota. rewrite S5.
    fold (labeledWorks n w). rewrite Hc.
    cbn [negb Nat.eqb]. cbn beta iota. autorewrite with world. rewrite S6. subst cond.
    destruct (failures w ImportManagedClusterFromSecret);
      cbn beta iota; autorewrite with world; rewrite ?S6;
      destruct (failures w UpdateManagedClusterStatus);
      cbn beta iota; autorewrite with world; rewrite ?Hserver;
      eexists _, _; (split; [reflexivity|]);
      autorewrite with world; by rewrite <- app_assoc. }
  rewrite E. split; [|split; [done|by eexists]].
  apply performed_app. simpl. by rewrite Hj2, Hj, <- app_assoc.
Qed.

(** The end-to-end scenario: the import secret is applied through the client of the admin secret, and the success condition written. *)
Lemma Reconcile_imports_when_ready_witness :
  exists before,
    performed Examples.ready (Reconcile Examples.c1 Examples.ready)
    = before ++ [ActImport {| clientSecret := Examples.adminSecret |} Examples.importSecret;
                 ActUpdateStatus "c1" importSucceeded]
    /\ forallb quiet before = true
    /\ is_Some (returned (Reconcile Examples.c1 Examples.ready)).
Proof.
  apply (Reconcile_imports_when_ready Examples.c1 Examples.ready
           (Examples.deployment [] None true (Some Examples.adminMetadata))
           (Examples.cluster ∅) Examples.adminSecret Examples.importSecret).
  - intros c _ _. reflexivity.
  - repeat split; reflexivity.
  - reflexivity.
  - exists Examples.adminMetadata. split; reflexivity.
  - reflexivity.
  - reflexivity.
Defined.

(** X11. Annotation convergence comes before the auto-import gate: a
    cluster owned by the auto-import handler still gets its created-via
    annotation patched (one patch, one event), and the reconciliation then
    returns success without applying anything. *)
Theorem Reconcile_annotates_before_auto_import `{Imports} (req : Request) (w : World)
    (cd : ClusterDeployment) (mc : ManagedCluster) :
  let n := nnName (reqNamespacedName req) in
  let desired := desiredCreatedVia cd in
  noFailures w ->
  installedAndClaimed n w cd mc ->
  is_Some (autoImportSecrets w !! (n, AutoImportSecretName)) ->
  mapIndex (Annotations (clusterMeta mc)) CreatedViaAnnotation <> CreatedViaDiscovery ->
  Annotations (clusterMeta mc) !! CreatedViaAnnotation <> Some desired ->
  returned (Reconcile req w) = Some (Result_zero, None)
  /\ performed w (Reconcile req w)
     = [ActPatchManagedCluster n {[ CreatedViaAnnotation := Some desired ]};
        ActEvent "ManagedClusterLabelsUpdated"
          ("The managed cluster " +:+ n +:+ " labels is added")]
  /\ (Annotations ∘ clusterMeta) <$> managedClusters (outcomeWorld (Reconcile req w)) !! n
     = Some (<[CreatedViaAnnotation := desired]> (Annotations (clusterMeta mc))).
Proof.
  intros n desired Hnf (L1 & Hdel & L2 & Hname & Hinst & Hclaim) [secret L3] Hd Hne.
  assert (Reconcile req w =
          Done (Result_zero, None)
            (record (ActEvent "ManagedClusterLabelsUpdated"
                       ("The managed cluster " +:+ n +:+ " labels is added"))
               (setManagedClusters
                  <[n := clusterWithAnnotations mc
                           (<[CreatedViaAnnotation := desired]>
                              (Annotations (clusterMeta mc)))]>
                  (record (ActPatchManagedCluster n
                             {[ CreatedViaAnnotation := Some desired ]}) w)))) as E.
  { unfold Reconcile. fold n. unfold_run.
    rewrite Hnf, L1. simpl. rewrite Hdel. simpl. rewrite Hnf, L2, Hinst. simpl.
    fold (unclaimed cd). rewrite Hclaim.
    rewrite setCreatedViaAnnotation_run. cbv zeta. fold desired.
    apply String.eqb_neq in Hd. rewrite Hd.
    destruct (decide _) as [|_]; [done|].
    rewrite Hnf, Hname, L2.
    cbn beta iota. cbn [failures autoImportSecrets record setManagedClusters].
    rewrite Hnf. cbn beta iota. cbn [autoImportSecrets record setManagedClusters].
    by rewrite L3. }
  rewrite E. split; [done|]. split.
  - apply performed_app. simpl. by rewrite <- app_assoc.
  - simpl. by rewrite lookup_insert_eq.
Qed.

(** Cluster [c1] with an auto-import secret: annotated with the host-install value, nothing applied. *)
Lemma Reconcile_annotates_before_auto_import_witness :
  returned (Reconcile Examples.c1 Examples.autoImportOwned) = Some (Result_zero, None)
  /\ performed Examples.autoImportOwned (Reconcile Examples.c1 Examples.autoImportOwned)
     = [ActPatchManagedCluster "c1"
          {[ "open-cluster-management/created-via" := Some "hive" ]};
        ActEvent "ManagedClusterLabelsUpdated" "The managed cluster c1 labels is added"]
  /\ (Annotations ∘ clusterMeta)
       <$> managedClusters (outcomeWorld (Reconcile Examples.c1 Examples.autoImportOwned)) !! "c1"
     = Some (<["open-cluster-management/created-via" := "hive"]> ∅).
Proof.
  assert (noFailures Examples.autoImportOwned) as Hnf by (intros c; reflexivity).
  assert (installedAndClaimed "c1" Examples.autoImportOwned
            (Examples.deployment [] None true (Some Examples.adminMetadata))
            (Examples.cluster ∅)) as Hgates by (repeat split; reflexivity).
  assert (is_Some (autoImportSecrets Examples.autoImportOwned !! ("c1", "auto-import-secret")))
    as Hauto by (by eexists).
  assert (mapIndex (Annotations (clusterMeta (Examples.cluster ∅))) CreatedViaAnnotation
          <> CreatedViaDiscovery) as Hd by (vm_compute; discriminate).
  assert (Annotations (clusterMeta (Examples.cluster ∅)) !! CreatedViaAnnotation
          <> Some (desiredCreatedVia
                     (Examples.deployment [] None true (Some Examples.adminMetadata))))
    as Hne by (vm_compute; discriminate).
  exact (Reconcile_annotates_before_auto_import Examples.c1 Examples.autoImportOwned _ _
           Hnf Hgates Hauto Hd Hne).
Defined.

(** X12. When the patch of the created-via annotation fails, the
    reconciliation returns that error and stops: the patch attempt is the
    only action, no event is emitted, nothing is applied and no store has
    changed. *)
Theorem Reconcile_annotation_patch_fails `{Imports} (req : Request) (w : World)
    (cd : ClusterDeployment) (mc : ManagedCluster) (e : error) :
  let n := nnName (reqNamespacedName req) in
  let desired := desiredCreatedVia cd in
  failures w GetClusterDeployment = None ->
  failures w GetManagedCluster = None ->
  installedAndClaimed n w cd mc ->
  mapIndex (Annotations (clusterMeta mc)) CreatedViaAnnotation <> CreatedViaDiscovery ->
  Annotations (clusterMeta mc) !! CreatedViaAnnotation <> Some desired ->
  failures w PatchManagedCluster = Some e ->
  Reconcile req w =
  Done (Result_zero, Some (Plain e))
    (record (ActPatchManagedCluster n {[ CreatedViaAnnotation := Some desired ]}) w).
Proof.
  intros n desired F1 F2 (L1 & Hdel & L2 & Hname & Hinst & Hclaim) Hd Hne F3.
  unfold Reconcile. fold n. unfold_run.
  rewrite F1, L1. simpl. rewrite Hdel. simpl. rewrite F2, L2, Hinst. simpl.
  fold (unclaimed cd). rewrite Hclaim.
  rewrite setCreatedViaAnnotation_run. cbv zeta. fold desired.
  apply String.eqb_neq in Hd. rewrite Hd.
  destruct (decide _) as [|_]; [done|].
  by rewrite F3, Hname.
Qed.

(** The patch of the cluster record of [c1] is refused with a conflict. *)
Lemma Reconcile_annotation_patch_fails_witness :
  Reconcile Examples.c1 Examples.annotationPatchFails =
  Done (Result_zero, Some (Plain Examples.conflict))
    (record (ActPatchManagedCluster "c1"
               {[ "open-cluster-management/created-via" := Some "hive" ]})
       Examples.annotationPatchFails).
Proof.
  assert (installedAndClaimed "c1" Examples.annotationPatchFails
            (Examples.deployment [] None true (Some Examples.adminMetadata))
            (Examples.cluster ∅)) as Hgates by (repeat split; reflexivity).
  assert (mapIndex (Annotations (clusterMeta (Examples.cluster ∅))) CreatedViaAnnotation
          <> CreatedViaDiscovery) as Hd by (vm_compute; discriminate).
  assert (Annotations (clusterMeta (Examples.cluster ∅)) !! CreatedViaAnnotation
          <> Some (desiredCreatedVia
                     (Examples.deployment [] None true (Some Examples.adminMetadata))))
    as Hne by (vm_compute; discriminate).
  exact (Reconcile_annotation_patch_fails Examples.c1 Examples.annotationPatchFails _ _
           Examples.conflict eq_refl eq_refl Hgates Hd Hne eq_refl).
Defined.

(** X13. When the patch that removes the import finalizer fails, the
    reconciliation of the deleted install record returns that error: the
    patch attempt is the only action, no event is emitted and the stored
    record keeps its finalizer. *)
Theorem Reconcile_finalizer_patch_fails `{Imports} (req : Request) (w : World)
    (cd : ClusterDeployment) (e : error) :
  let n := nnName (reqNamespacedName req) in
  failures w GetClusterDeployment = None ->
  clusterDeployments w !! (n, n) = Some cd ->
  Time_IsZero (DeletionTimestamp (deploymentMeta cd)) = false ->
  Finalizers (deploymentMeta cd) = [ImportFinalizer] ->
  failures w PatchClusterDeployment = Some e ->
  Reconcile req w =
  Done (Result_zero, Some (Plain e))
    (record (ActPatchClusterDeployment (Namespace (deploymentMeta cd))
               (Name (deploymentMeta cd)) []) w).
Proof.
  intros n F1 L1 Hdel Hfin F2.
  unfold Reconcile. fold n. unfold_run.
  rewrite F1, L1. simpl. rewrite Hdel. simpl.
  rewrite removeImportFinalizer_run. cbv zeta.
  destruct (decide _) as [_|]; [|done].
  by rewrite F2.
Qed.

(** The patch of the deleted install record of [c1] is refused with a conflict. *)
Lemma Reconcile_finalizer_patch_fails_witness :
  Reconcile Examples.c1 Examples.deletingPatchFails =
  Done (Result_zero, Some (Plain Examples.conflict))
    (record (ActPatchClusterDeployment "c1" "c1" []) Examples.deletingPatchFails).
Proof.
  apply (Reconcile_finalizer_patch_fails Examples.c1 Examples.deletingPatchFails
           (Examples.deployment ["legacy-import"] (Some 1%N) true
              (Some Examples.adminMetadata)) Examples.conflict);
    reflexivity.
Defined.

(** X14. Annotation convergence touches one annotation of one cluster
    record: every other cluster record, and every store but the cluster
    records, is left as it is; a missing cluster record is not created; and
    the record of the cluster keeps its conditions, labels, finalizers and
    every annotation but the created-via one. *)
Theorem setCreatedViaAnnotation_touches_one_annotation `{Imports}
    (cd : ClusterDeployment) (cluster : ManagedCluster) (w : World) :
  let name := Name (clusterMeta cluster) in
  let w' := outcomeWorld (setCreatedViaAnnotation cd cluster w) in
  sameReads w w'
  /\ (forall k, k <> name -> managedClusters w' !! k = managedClusters w !! k)
  /\ (managedClusters w !! name = None -> managedClusters w' !! name = None)
  /\ (forall server, managedClusters w !! name = Some server ->
        exists server',
          managedClusters w' !! name = Some server'
          /\ Conditions server' = Conditions server
          /\ Labels (clusterMeta server') = Labels (clusterMeta server)
          /\ Finalizers (clusterMeta server') = Finalizers (clusterMeta server)
          /\ forall a, a <> CreatedViaAnnotation ->
               Annotations (clusterMeta server') !! a
               = Annotations (clusterMeta server) !! a).
Proof.
  intros name w'. subst w'. rewrite setCreatedViaAnnotation_run. cbv zeta. fold name.
  destruct (String.eqb _ _);
    [|destruct (decide _);
      [|destruct (failures w PatchManagedCluster);
        [|destruct (managedClusters w !! name) as [server|] eqn:L]]].
  all: split; [by repeat split|]; simpl.
  all: split; [intros k Hk; try done|].
  all: try (split; [done|]; intros server' Hs; exists server'; by repeat split).
  - by rewrite lookup_insert_ne.
  - split; [done|]. intros server' Hs. simplify_eq.
    eexists. split; [apply lookup_insert_eq|]. repeat split.
    intros a Ha. simpl. by rewrite lookup_insert_ne.
Qed.

(** The cluster record of [c1] after convergence: no condition, label or finalizer appeared, and no other annotation. *)
Lemma setCreatedViaAnnotation_touches_one_annotation_witness :
  let cd := Examples.deployment [] None true (Some Examples.adminMetadata) in
  let w' := outcomeWorld (setCreatedViaAnnotation cd (Examples.cluster ∅) Examples.ready) in
  exists server',
    managedClusters w' !! "c1" = Some server'
    /\ Conditions server' = []
    /\ Labels (clusterMeta server') = ∅
    /\ Finalizers (clusterMeta server') = []
    /\ forall a, a <> "open-cluster-management/created-via" ->
         Annotations (clusterMeta server') !! a = (∅ : gmap string string) !! a.
Proof.
  intros cd w'.
  destruct (setCreatedViaAnnotation_touches_one_annotation cd (Examples.cluster ∅)
              Examples.ready) as (_ & _ & _ & Hserver).
  exact (Hserver (Examples.cluster ∅) eq_refl).
Defined.



(** The reason of a patch or of an event. *)
Lemma Reconcile_mutation_reason `{Imports} (req : Request) (w : World) (a : Action) :
  let n := nnName (reqNamespacedName req) in
  a ∈ performed w (Reconcile req w) ->
  isPatch a = true \/ isEvent a = true ->
  exists cd,
    clusterDeployments w !! (n, n) = Some cd
    /\ failures w GetClusterDeployment = None
    /\ ((Time_IsZero (DeletionTimestamp (deploymentMeta cd)) = false
         /\ Finalizers (deploymentMeta cd) = [ImportFinalizer])
        \/ (Time_IsZero (DeletionTimestamp (deploymentMeta cd)) = true
            /\ failures w GetManagedCluster = None
            /\ Installed cd = true
            /\ unclaimed cd = false
            /\ exists mc,
                 managedClusters w !! n = Some mc
                 /\ mapIndex (Annotations (clusterMeta mc)) CreatedViaAnnotation
                    <> CreatedViaDiscovery
                 /\ Annotations (clusterMeta mc) !! CreatedViaAnnotation
                    <> Some (desiredCreatedVia cd))).
Proof.
  intros n.
  remember (Reconcile req w) as out eqn:Hout.
  unfold Reconcile in Hout. fold n in Hout. unfold_run_in Hout.
  explore Hout.
  all: intros Ha Hkind; subst out.
  all: journal_of Ha.
  all: simpl in Ha.
  all: repeat (apply elem_of_cons in Ha as [-> | Ha]).
  all: try (by apply elem_of_nil in Ha).
  all: try (by destruct Hkind).
  all: bool_facts.
  all: eexists; (split; [reflexivity|]); (split; [done|]).
  all: try (left; by split).
  all: right; unfold unclaimed.
  all: repeat match goal with Hr : ClusterPoolRef _ = _ |- _ => rewrite Hr end.
  all: repeat (split; [done|]).
  all: eexists; by repeat split.
Qed.



(** What a successful reconciliation leaves behind. *)
Lemma Reconcile_after_success `{Imports} (req : Request) (w : World) :
  let n := nnName (reqNamespacedName req) in
  let w' := outcomeWorld (Reconcile req w) in
  (forall cd, clusterDeployments w !! (n, n) = Some cd ->
     Namespace (deploymentMeta cd) = n /\ Name (deploymentMeta cd) = n) ->
  (forall mc, managedClusters w !! n = Some mc -> Name (clusterMeta mc) = n) ->
  failures w GetClusterDeployment = None ->
  returned (Reconcile req w) = Some (Result_zero, None) ->
  forall cd',
    clusterDeployments w' !! (n, n) = Some cd' ->
    (Time_IsZero (DeletionTimestamp (deploymentMeta cd')) = false ->
     Finalizers (deploymentMeta cd') <> [ImportFinalizer])
    /\ (Time_IsZero (DeletionTimestamp (deploymentMeta cd')) = true ->
        failures w GetManagedCluster = None ->
        Installed cd' = true ->
        unclaimed cd' = false ->
        forall mc',
          managedClusters w' !! n = Some mc' ->
          mapIndex (Annotations (clusterMeta mc')) CreatedViaAnnotation
          = CreatedViaDiscovery
          \/ Annotations (clusterMeta mc') !! CreatedViaAnnotation
             = Some (desiredCreatedVia cd')).
Proof.
  intros n w'. subst w'.
  remember (Reconcile req w) as out eqn:Hout.
  unfold Reconcile in Hout. fold n in Hout. clearbody n. unfold_run_in Hout.
  explore Hout.
  all: intros Hcd Hmc F1 Hret; subst out; try discriminate.
  all: try (simpl in Hret; congruence).
  all: clear Hret.
  all: bool_facts.
  all: cbn [outcomeWorld clusterDeployments managedClusters record
            setManagedClusters setClusterDeployments].
  all: intros cd' Hcd'.
  all: repeat match goal with
              | Hk : forall cd, ?x = Some cd -> _ /\ _, Hx : ?x = Some ?c |- _ =>
                  destruct (Hk c Hx) as [Hns Hnm]; clear Hk;
                  rewrite ?Hns, ?Hnm in *
              | Hk : forall cd, Some ?c = Some cd -> _ /\ _ |- _ =>
                  destruct (Hk c eq_refl) as [Hns Hnm]; clear Hk;
                  rewrite ?Hns, ?Hnm in *
              | Hk : forall mc, ?x = Some mc -> _ = _, Hx : ?x = Some ?m |- _ =>
                  pose proof (Hk m Hx) as Hnm'; clear Hk;
                  rewrite ?Hnm' in *
              | Hk : forall mc, Some ?m = Some mc -> _ = _ |- _ =>
                  pose proof (Hk m eq_refl) as Hnm'; clear Hk;
                  rewrite ?Hnm' in *
              end.
  all: rewrite ?lookup_insert_eq in *.
  all: repeat match goal with
              | H1 : ?x = Some _, H2 : ?x = Some _ |- _ =>
                  rewrite H1 in H2; injection H2 as ?
              | H1 : Some _ = Some _ |- _ => injection H1 as ?
              end.
  all: subst.
  all: (split; [intros Hz|intros Hz F2 Hinst Hcl mc' Hmc']).
  all: rewrite ?lookup_insert_eq in *.
  all: repeat match goal with
              | H1 : ?x = Some _, H2 : ?x = Some _ |- _ =>
                  rewrite H1 in H2; injection H2 as ?
              | H1 : Some _ = Some _ |- _ => injection H1 as ?
              end.
  all: subst.
  all: simpl in *.
  all: try congruence.
  all: try (left; congruence).
  all: try (right; congruence).
  all: try (right; apply lookup_insert_eq).
  all: unfold unclaimed in Hcl.
  all: match goal with
       | Hr : ClusterPoolRef _ = _ |- _ => rewrite Hr in Hcl
       end.
  all: congruence.
Qed.

(** X17. After a reconciliation that returned success (records stored
    under their names, the two reads of the records not failing), the
    records are converged: an install record that is being deleted does not
    have the import finalizer as its only finalizer, and the cluster record
    of an installed and claimed cluster reads as the discovery marker or
    carries the wanted created-via value. *)
Theorem Reconcile_success_converged `{Imports} (req : Request) (w : World) :
  let n := nnName (reqNamespacedName req) in
  let w' := outcomeWorld (Reconcile req w) in
  (forall cd, clusterDeployments w !! (n, n) = Some cd ->
     Namespace (deploymentMeta cd) = n /\ Name (deploymentMeta cd) = n) ->
  (forall mc, managedClusters w !! n = Some mc -> Name (clusterMeta mc) = n) ->
  failures w GetClusterDeployment = None ->
  failures w GetManagedCluster = None ->
  returned (Reconcile req w) = Some (Result_zero, None) ->
  forall cd',
    clusterDeployments w' !! (n, n) = Some cd' ->
    (Time_IsZero (DeletionTimestamp (deploymentMeta cd')) = false ->
     Finalizers (deploymentMeta cd') <> [ImportFinalizer])
    /\ (Time_IsZero (DeletionTimestamp (deploymentMeta cd')) = true ->
        Installed cd' = true ->
        unclaimed cd' = false ->
        forall mc',
          managedClusters w' !! n = Some mc' ->
          mapIndex (Annotations (clusterMeta mc')) CreatedViaAnnotation
          = CreatedViaDiscovery
          \/ Annotations (clusterMeta mc') !! CreatedViaAnnotation
             = Some (desiredCreatedVia cd')).
Proof.
  intros n w' Hcd Hmc F1 F2 Hret cd' Hcd'.
  destruct (Reconcile_after_success req w Hcd Hmc F1 Hret cd' Hcd') as [Hfin Hann].
  split; [exact Hfin|]. intros Hz. by apply Hann.
Qed.

(** The ready cluster [c1] after one run carries the host-install value. *)
Lemma Reconcile_success_converged_witness :
  let w' := outcomeWorld (Reconcile Examples.c1 Examples.ready) in
  match managedClusters w' !! "c1" with
  | Some mc' =>
      mapIndex (Annotations (clusterMeta mc')) "open-cluster-management/created-via"
      = "discovery"
      \/ Annotations (clusterMeta mc') !! "open-cluster-management/created-via"
         = Some "hive"
  | None => False
  end.
Proof.
  intros w'.
  destruct (managedClusters w' !! "c1") as [mc'|] eqn:Hstored;
    [|vm_compute in Hstored; discriminate].
  destruct (Reconcile_success_converged Examples.c1 Examples.ready) with
    (cd' := Examples.deployment [] None true (Some Examples.adminMetadata))
    as [_ Hann].
  - intros cd Hcd. vm_compute in Hcd. injection Hcd as <-. split; reflexivity.
  - intros mc Hmc. vm_compute in Hmc. injection Hmc as <-. reflexivity.
  - reflexivity.
  - reflexivity.
  - vm_compute. reflexivity.
  - vm_compute. reflexivity.
  - apply Hann; [reflexivity | reflexivity | reflexivity | exact Hstored].
Defined.

(** X18. Convergence happens once: after a reconciliation that returned
    success (records stored under their names), a second reconciliation of
    the world it left patches nothing and emits no event. *)
Theorem Reconcile_converges_once `{Imports} (req : Request) (w : World) :
  let n := nnName (reqNamespacedName req) in
  let w' := outcomeWorld (Reconcile req w) in
  (forall cd, clusterDeployments w !! (n, n) = Some cd ->
     Namespace (deploymentMeta cd) = n /\ Name (deploymentMeta cd) = n) ->
  (forall mc, managedClusters w !! n = Some mc -> Name (clusterMeta mc) = n) ->
  returned (Reconcile req w) = Some (Result_zero, None) ->
  forall a, a ∈ performed w' (Reconcile req w') ->
            isPatch a = false /\ isEvent a = false.
Proof.
  intros n w' Hcd Hmc Hret a Ha.
  destruct (isPatch a) eqn:Hp, (isEvent a) eqn:He; try done; exfalso.
  all: destruct (Reconcile_mutation_reason req w' a Ha) as (cd' & L' & F1' & Hcause);
    [rewrite ?Hp, ?He; auto|].
  all: destruct (Reconcile_frame req w) as ((_ & _ & _ & _ & Hf) & _).
  all: fold w' in Hf; rewrite Hf in F1'.
  all: destruct (Reconcile_after_success req w Hcd Hmc F1' Hret cd' L') as [Hfin Hann].
  all: destruct Hcause as [(Hdel & Hfin') | (Hz & F2' & Hinst & Hcl & mc' & L2' & Hd & Hne)];
    [by apply Hfin|].
  all: rewrite Hf in F2'.
  all: by destruct (Hann Hz F2' Hinst Hcl mc' L2').
Qed.

(** The ready cluster [c1]: the second run patches nothing and emits no event. *)
Lemma Reconcile_converges_once_witness :
  let w' := outcomeWorld (Reconcile Examples.c1 Examples.ready) in
  Forall (fun a => isPatch a = false /\ isEvent a = false)
         (performed w' (Reconcile Examples.c1 w')).
Proof.
  intros w'. apply Forall_forall.
  apply (Reconcile_converges_once Examples.c1 Examples.ready).
  - intros cd Hcd. vm_compute in Hcd. injection Hcd as <-. split; reflexivity.
  - intros mc Hmc. vm_compute in Hmc. injection Hmc as <-. reflexivity.
  - vm_compute. reflexivity.
Defined.

(** X19. Finalizer cleanup reaches a fixed point: after a reconciliation of
    a deleted install record (stored under its own name) that returned
    success, a further reconciliation returns success and leaves the world,
    journal included, as it is. *)
Theorem Reconcile_cleanup_once `{Imports} (req : Request) (w w' : World)
    (cd : ClusterDeployment) :
  let n := nnName (reqNamespacedName req) in
  failures w GetClusterDeployment = None ->
  clusterDeployments w !! (n, n) = Some cd ->
  Namespace (deploymentMeta cd) = n ->
  Name (deploymentMeta cd) = n ->
  Time_IsZero (DeletionTimestamp (deploymentMeta cd)) = false ->
  Reconcile req w = Done (Result_zero, None) w' ->
  Reconcile req w' = Done (Result_zero, None) w'.
Proof.
  intros n F1 L1 Hns Hname Hdel Hfirst.
  unfold Reconcile in Hfirst. fold n in Hfirst. unfold_run_in Hfirst.
  rewrite F1, L1 in Hfirst. simpl in Hfirst. rewrite Hdel in Hfirst. simpl in Hfirst.
  rewrite removeImportFinalizer_run in Hfirst. cbv zeta in Hfirst.
  rewrite Hns, Hname in Hfirst.
  assert (forall cd', clusterDeployments w' !! (n, n) = Some cd' ->
            failures w' = failures w ->
            Time_IsZero (DeletionTimestamp (deploymentMeta cd')) = false ->
            Finalizers (deploymentMeta cd') <> [ImportFinalizer] ->
            Reconcile req w' = Done (Result_zero, None) w') as Hsecond.
  { intros cd' L1' F' Hdel' Hfin'.
    unfold Reconcile. fold n. unfold_run.
    rewrite F', F1, L1'. simpl. rewrite Hdel'. simpl.
    rewrite removeImportFinalizer_run. cbv zeta.
    destruct (decide (Finalizers (deploymentMeta cd') = [ImportFinalizer])); [done|].
    reflexivity. }
  destruct (decide (Finalizers (deploymentMeta cd) = [ImportFinalizer])) as [Hfin | Hfin].
  - destruct (failures w PatchClusterDeployment); [done|].
    rewrite L1 in Hfirst. simpl in Hfirst. injection Hfirst as <-.
    apply (Hsecond (deploymentWithFinalizers cd [])).
    + simpl. apply lookup_insert_eq.
    + done.
    + done.
    + done.
  - simpl in Hfirst. injection Hfirst as <-. by apply (Hsecond cd).
Qed.

(** The legacy finalizer alone on the deleted record of [c1]: removed by the first run, the second run changes nothing. *)
Lemma Reconcile_cleanup_once_witness :
  let w' := outcomeWorld (Reconcile Examples.c1 (Examples.deleting ["legacy-import"])) in
  Reconcile Examples.c1 w' = Done (Result_zero, None) w'.
Proof.
  intros w'.
  apply (Reconcile_cleanup_once Examples.c1 (Examples.deleting ["legacy-import"]) w'
           (Examples.deployment ["legacy-import"] (Some 1%N) true
              (Some Examples.adminMetadata))).
  - reflexivity.
  - reflexivity.
  - reflexivity.
  - reflexivity.
  - reflexivity.
  - vm_compute. reflexivity.
Defined.
